(** * Fixture generator of pptx-viewer: [scripts/generate-test-pptx.py]

    The script builds seven presentation documents with the python-pptx
    object API and saves each under a fixed name.  This development embeds

    - Python strings as lists of Unicode code points,
    - the part of the python-pptx object model the script touches
      (presentation, slides, shapes, fills, text frames, paragraphs, runs,
      tables) as records, with the library's documented defaults,
    - the script's statements as programs of a state-and-exception monad:
      attribute assignments become updates of the document tree through
      references (paths into the tree), library errors become exceptions,
    - the file system and the console as a world that records every call.

    The seven recipes and the driver are transcribed statement by statement,
    in the order of the source. *)

From Stdlib Require Import QArith ZArith String Ascii.
From stdpp Require Import base option list gmap strings pretty.

Open Scope Z_scope.

(** ** Python strings *)

(** A Python [str] is a sequence of code points. *)
Abbreviation str := (list N).

(** The source file is UTF-8; a literal denotes the code points its bytes
    decode to.  [utf8_decode] is the standard decoder (1 to 4 byte forms). *)
Definition cont_byte (b : N) : bool := ((0x80 <=? b) && (b <? 0xC0))%N.

Fixpoint utf8_decode (bs : list N) : option str :=
  match bs with
  | [] => Some []
  | b0 :: t0 =>
    if (b0 <? 0x80)%N then cons b0 <$> utf8_decode t0
    else if (b0 <? 0xC0)%N then None
    else if (b0 <? 0xE0)%N then
      match t0 with
      | b1 :: t1 =>
        if cont_byte b1
        then cons (N.land b0 0x1F * 64 + N.land b1 0x3F)%N <$> utf8_decode t1
        else None
      | _ => None
      end
    else if (b0 <? 0xF0)%N then
      match t0 with
      | b1 :: b2 :: t2 =>
        if cont_byte b1 && cont_byte b2
        then cons (N.land b0 0x0F * 4096 + N.land b1 0x3F * 64
                   + N.land b2 0x3F)%N <$> utf8_decode t2
        else None
      | _ => None
      end
    else if (b0 <? 0xF8)%N then
      match t0 with
      | b1 :: b2 :: b3 :: t3 =>
        if cont_byte b1 && cont_byte b2 && cont_byte b3
        then cons (N.land b0 0x07 * 262144 + N.land b1 0x3F * 4096
                   + N.land b2 0x3F * 64 + N.land b3 0x3F)%N <$> utf8_decode t3
        else None
      | _ => None
      end
    else None
  end.

Definition source_bytes (s : string) : list N :=
  N_of_ascii <$> list_ascii_of_string s.

(** [py "..."] is the Python string written ["..."] in the source. *)
Definition py (s : string) : str := default [] (utf8_decode (source_bytes s)).

(** [str(n)] as an f-string prints an integer. *)
Definition str_of_int (n : Z) : str := py (pretty n).

(** ["-" * 50] *)
Definition str_mul (s : str) (n : nat) : str := mjoin (replicate n s).

Definition LF : N := 10%N.
Definition VT : N := 11%N.

(** [re.split] on single-character separators: the pieces between them. *)
Fixpoint split_on (seps : list N) (s : str) : list str :=
  match s with
  | [] => [[]]
  | c :: s' =>
    if bool_decide (c ∈ seps) then [] :: split_on seps s'
    else match split_on seps s' with
         | piece :: pieces => (c :: piece) :: pieces
         | [] => [[c]]
         end
  end.

(** [enumerate(l, start)] *)
Definition enumerate {A} (start : nat) (l : list A) : list (nat * A) :=
  zip (seq start (length l)) l.

(** ** Exceptions and the state-and-exception monad *)

Inductive Exn :=
| IndexError | TypeError | ValueError | AttributeError | ZeroDivisionError
| FileExistsError | FileNotFoundError | NotADirectoryError | IsADirectoryError.

Inductive result (A : Type) :=
| OK (a : A)
| Raise (e : Exn).
Arguments OK {A} a.
Arguments Raise {A} e.

(** A computation over a mutable state [S]; the state survives an
    exception, as the heap and the console do in Python. *)
Definition M (S A : Type) : Type := S → result A * S.

#[global] Instance M_ret S : MRet (M S) := λ A a s, (OK a, s).
#[global] Instance M_bind S : MBind (M S) := λ A B f m s,
  match m s with
  | (OK a, s') => f a s'
  | (Raise e, s') => (Raise e, s')
  end.

Definition raise {S A} (e : Exn) : M S A := λ s, (Raise e, s).
Definition get {S} : M S S := λ s, (OK s, s).
Definition put {S} (s : S) : M S unit := λ _, (OK tt, s).
Definition modify {S} (f : S → S) : M S unit := λ s, (OK tt, f s).

(** [for x in l: body x] *)
Fixpoint for_each {S A} (l : list A) (body : A → M S unit) : M S unit :=
  match l with
  | [] => mret tt
  | x :: l' => body x;; for_each l' body
  end.

(** Running a computation on a part of the state: a field ... *)
Definition zoom {S T A} (proj : S → T) (inj : T → S → S) (m : M T A) : M S A :=
  λ s, let '(r, t) := m (proj s) in (r, inj t s).

(** ... the [i]-th element of a list ([IndexError] out of range) ... *)
Definition zoom_nth {T A} (i : nat) (m : M T A) : M (list T) A :=
  λ l, match l !! i with
       | Some x => let '(r, x') := m x in (r, <[i := x']> l)
       | None => (Raise IndexError, l)
       end.

(** ... or one variant of a sum ([e] on the others). *)
Definition zoom_case {S T A} (proj : S → option T) (inj : T → S → S)
    (e : Exn) (m : M T A) : M S A :=
  λ s, match proj s with
       | Some t => let '(r, t') := m t in (r, inj t' s)
       | None => (Raise e, s)
       end.

(** ** Lengths: English Metric Units *)

(** [Inches(x) = int(x * 914400)], [Pt(x) = int(x * 12700)].  The recipes
    pass decimal literals; the product is taken in exact arithmetic and
    truncated, which is the value the float product truncates to for every
    literal of the script. *)
Definition Inches (x : Q) : Z := Z.quot (Qnum x * 914400) (Z.pos (Qden x)).
Definition Pt (x : Q) : Z := Z.quot (Qnum x * 12700) (Z.pos (Qden x)).
Arguments Inches x%_Q.
Arguments Pt x%_Q.

(** ** The document tree of python-pptx *)

Inductive MSO_SHAPE :=
| RECTANGLE | ROUNDED_RECTANGLE | OVAL | ISOSCELES_TRIANGLE | DIAMOND
| STAR_5_POINT | RIGHT_ARROW | LEFT_ARROW | HEART | CLOUD | CHEVRON | HEXAGON.

Inductive PP_ALIGN := LEFT | CENTER | RIGHT | JUSTIFY | DISTRIBUTE.

Inductive MSO_THEME_COLOR := ACCENT_1 | ACCENT_2 | TEXT_1 | BACKGROUND_1.

Inductive PP_PLACEHOLDER :=
| PH_CENTER_TITLE | PH_SUBTITLE | PH_TITLE | PH_OBJECT | PH_BODY | PH_PICTURE.

(** [RGBColor(r, g, b)] *)
Inductive rgb := RGBColor (r g b : Z).

(** A color slot: unset, an explicit RGB value, or a theme color. *)
Inductive Color :=
| color_unset
| color_rgb (c : rgb)
| color_theme (t : MSO_THEME_COLOR).

(** Character properties; [None] means inherited. *)
Record Font := mkFont {
  f_size : option Z;
  f_bold : option bool;
  f_italic : option bool;
  f_underline : option bool;
  f_color : Color }.

Definition no_font : Font := mkFont None None None None color_unset.

Record Run := mkRun { r_text : str; r_font : Font }.

(** The children of a paragraph: runs and line breaks. *)
Inductive Inline :=
| inline_run (r : Run)
| inline_break.

(** The bullet of a paragraph as its properties give it: none of its own
    (inherited), explicitly none, a character, or automatic numbering. *)
Inductive Bullet :=
| bu_inherited
| bu_none
| bu_char (c : N)
| bu_auto_num (scheme : str).

Record Paragraph := mkParagraph {
  p_content : list Inline;
  p_alignment : option PP_ALIGN;
  p_level : Z;
  p_bullet : Bullet;
  p_font : Font }.

Definition new_paragraph : Paragraph := mkParagraph [] None 0 bu_inherited no_font.

Record TextFrame := mkTextFrame {
  tf_paragraphs : list Paragraph;
  tf_word_wrap : option bool }.

(** A gradient stop: position in 1/100000 and color. *)
Record GradientStop := mkStop { gs_position : Z; gs_color : Color }.

(** A fill: none of its own (inherited from the style), explicitly none
    (the element is transparent), solid, or gradient with its stops and,
    when linear, the angle attribute in 1/60000 degree, clockwise. *)
Inductive Fill :=
| fill_inherited
| fill_none
| fill_solid (c : Color)
| fill_gradient (stops : list GradientStop) (lin_ang : option Z).

Record Box := mkBox { b_left : Z; b_top : Z; b_width : Z; b_height : Z }.

Record Cell := mkCell { cell_fill : Fill; cell_text_frame : TextFrame }.

Record Row := mkRow { row_height : Z; row_cells : list Cell }.

Record Table := mkTable { tbl_columns : list Z; tbl_rows : list Row }.

Inductive Geometry :=
| preset (t : MSO_SHAPE)
| text_box.

(** What a slide holds: auto shapes and text boxes (one class in the
    library), graphic frames holding a table, and placeholders cloned from
    the layout. *)
Inductive Element :=
| el_shape (id : Z) (g : Geometry) (b : Box) (f : Fill) (tf : TextFrame)
| el_graphic_frame (id : Z) (b : Box) (t : Table)
| el_placeholder (id : Z) (ph : PP_PLACEHOLDER).

(** The layouts of the library's default template, in order. *)
Inductive SlideLayout :=
| TITLE_SLIDE | TITLE_AND_CONTENT | SECTION_HEADER | TWO_CONTENT | COMPARISON
| TITLE_ONLY | BLANK | CONTENT_WITH_CAPTION | PICTURE_WITH_CAPTION
| TITLE_AND_VERTICAL_TEXT | VERTICAL_TITLE_AND_TEXT.

Record Slide := mkSlide { sl_layout : SlideLayout; sl_shapes : list Element }.

Record Presentation := mkPresentation {
  slide_width : Z;
  slide_height : Z;
  slides : list Slide }.

(** Field updates. *)
Definition set_f_size v (f : Font) := mkFont v (f_bold f) (f_italic f) (f_underline f) (f_color f).
Definition set_f_bold v (f : Font) := mkFont (f_size f) v (f_italic f) (f_underline f) (f_color f).
Definition set_f_italic v (f : Font) := mkFont (f_size f) (f_bold f) v (f_underline f) (f_color f).
Definition set_f_underline v (f : Font) := mkFont (f_size f) (f_bold f) (f_italic f) v (f_color f).
Definition set_f_color v (f : Font) := mkFont (f_size f) (f_bold f) (f_italic f) (f_underline f) v.
Definition set_r_text v (r : Run) := mkRun v (r_font r).
Definition set_r_font v (r : Run) := mkRun (r_text r) v.
Definition set_p_content v (p : Paragraph) := mkParagraph v (p_alignment p) (p_level p) (p_bullet p) (p_font p).
Definition set_p_alignment v (p : Paragraph) := mkParagraph (p_content p) v (p_level p) (p_bullet p) (p_font p).
Definition set_p_level v (p : Paragraph) := mkParagraph (p_content p) (p_alignment p) v (p_bullet p) (p_font p).
Definition set_p_font v (p : Paragraph) := mkParagraph (p_content p) (p_alignment p) (p_level p) (p_bullet p) v.
Definition set_tf_paragraphs v (tf : TextFrame) := mkTextFrame v (tf_word_wrap tf).
Definition set_tf_word_wrap v (tf : TextFrame) := mkTextFrame (tf_paragraphs tf) v.
Definition set_gs_color v (g : GradientStop) := mkStop (gs_position g) v.
Definition set_cell_fill v (c : Cell) := mkCell v (cell_text_frame c).
Definition set_cell_text_frame v (c : Cell) := mkCell (cell_fill c) v.
Definition set_row_cells v (r : Row) := mkRow (row_height r) v.
Definition set_tbl_columns v (t : Table) := mkTable v (tbl_rows t).
Definition set_tbl_rows v (t : Table) := mkTable (tbl_columns t) v.
Definition set_sl_shapes v (s : Slide) := mkSlide (sl_layout s) v.
Definition set_slide_width v (p : Presentation) := mkPresentation v (slide_height p) (slides p).
Definition set_slide_height v (p : Presentation) := mkPresentation (slide_width p) v (slides p).
Definition set_slides v (p : Presentation) := mkPresentation (slide_width p) (slide_height p) v.

(** Reading the tree, as a reader of the document does. *)

Definition element_id (e : Element) : Z :=
  match e with
  | el_shape id _ _ _ _ | el_graphic_frame id _ _ | el_placeholder id _ => id
  end.

Definition element_fill (e : Element) : option Fill :=
  match e with el_shape _ _ _ f _ => Some f | _ => None end.

Definition element_text_frame (e : Element) : option TextFrame :=
  match e with el_shape _ _ _ _ tf => Some tf | _ => None end.

Definition element_table (e : Element) : option Table :=
  match e with el_graphic_frame _ _ t => Some t | _ => None end.

Definition element_box (e : Element) : option Box :=
  match e with
  | el_shape _ _ b _ _ | el_graphic_frame _ b _ => Some b
  | el_placeholder _ _ => None
  end.

Definition element_geometry (e : Element) : option Geometry :=
  match e with el_shape _ g _ _ _ => Some g | _ => None end.

(** [paragraph.runs] *)
Definition runs (p : Paragraph) : list Run :=
  omap (λ i, match i with inline_run r => Some r | inline_break => None end)
       (p_content p).

(** [paragraph.text]: the runs' text, a vertical tab for each line break. *)
Definition inline_text (i : Inline) : str :=
  match i with inline_run r => r_text r | inline_break => [VT] end.

Definition paragraph_text (p : Paragraph) : str := mjoin (inline_text <$> p_content p).

(** [text_frame.text]: the paragraphs' text joined by line feeds. *)
Fixpoint join_lines (ls : list str) : str :=
  match ls with
  | [] => []
  | [l] => l
  | l :: ls' => l ++ LF :: join_lines ls'
  end.

Definition text_frame_text (tf : TextFrame) : str :=
  join_lines (paragraph_text <$> tf_paragraphs tf).

(** [fill.gradient_angle]: counter-clockwise degrees. *)
Definition gradient_angle_of (lin_ang : Z) : Z :=
  let clockwise := lin_ang / 60000 in
  if clockwise =? 0 then 0 else 360 - clockwise.

(** A character property as it applies to a run: the run's own value, or
    else the default of its paragraph. *)
Definition first_set {A} (own dflt : option A) : option A :=
  match own with Some v => Some v | None => dflt end.

Definition effective_bold (p : Paragraph) (r : Run) : option bool :=
  first_set (f_bold (r_font r)) (f_bold (p_font p)).

Definition effective_color (p : Paragraph) (r : Run) : Color :=
  match f_color (r_font r) with
  | color_unset => f_color (p_font p)
  | c => c
  end.

Definition table_shape (t : Table) : nat * nat :=
  (length (tbl_rows t), length (tbl_columns t)).

Definition table_cell (t : Table) (r c : nat) : option Cell :=
  tbl_rows t !! r ≫= λ row, row_cells row !! c.

(** ** References into the tree

    A Python variable bound to a shape, a paragraph, a run, a fill ... is a
    reference to a node of the presentation under construction.  Nodes are
    only ever appended by the recipes, so a reference is the path of indices
    that leads to the node. *)

Record SlideRef := slide_ref { slide_ix : nat }.
Record ShapeRef := shape_ref { sh_slide : SlideRef; sh_ix : nat }.
Record TableRef := table_ref { tr_frame : ShapeRef }.
Record ColumnRef := column_ref { col_table : TableRef; col_ix : nat }.
Record CellRef := cell_ref { cr_table : TableRef; cr_row : nat; cr_col : nat }.
Inductive TextFrameRef :=
| tf_of_shape (s : ShapeRef)
| tf_of_cell (c : CellRef).
Record ParagraphRef := paragraph_ref { pr_frame : TextFrameRef; pr_ix : nat }.
Record RunRef := run_ref { rr_paragraph : ParagraphRef; rr_ix : nat }.
Inductive FillRef :=
| fill_of_shape (s : ShapeRef)
| fill_of_cell (c : CellRef).
Record StopRef := stop_ref { st_fill : FillRef; st_ix : nat }.
Inductive FontRef :=
| font_of_run (r : RunRef)
| font_of_paragraph (p : ParagraphRef).
Inductive ColorRef :=
| fore_color (f : FillRef)
| color_of_stop (s : StopRef)
| color_of_font (f : FontRef).

(** Programs that build a presentation. *)
Abbreviation Doc := (M Presentation).

Definition with_fill (f : Fill) (e : Element) : Element :=
  match e with el_shape id g b _ tf => el_shape id g b f tf | _ => e end.

Definition with_text_frame (tf : TextFrame) (e : Element) : Element :=
  match e with el_shape id g b f _ => el_shape id g b f tf | _ => e end.

Definition with_table (t : Table) (e : Element) : Element :=
  match e with el_graphic_frame id b _ => el_graphic_frame id b t | _ => e end.

Definition inline_as_run (i : Inline) : option Run :=
  match i with inline_run r => Some r | inline_break => None end.

Definition solid_color (f : Fill) : option Color :=
  match f with fill_solid c => Some c | _ => None end.

Definition gradient_stops_of (f : Fill) : option (list GradientStop) :=
  match f with fill_gradient stops _ => Some stops | _ => None end.

Definition with_gradient_stops (stops : list GradientStop) (f : Fill) : Fill :=
  match f with fill_gradient _ ang => fill_gradient stops ang | _ => f end.

Definition on_slide {A} (s : SlideRef) (m : M Slide A) : Doc A :=
  zoom slides set_slides (zoom_nth (slide_ix s) m).

Definition on_shape {A} (s : ShapeRef) (m : M Element A) : Doc A :=
  on_slide (sh_slide s) (zoom sl_shapes set_sl_shapes (zoom_nth (sh_ix s) m)).

Definition on_table {A} (t : TableRef) (m : M Table A) : Doc A :=
  on_shape (tr_frame t) (zoom_case element_table with_table AttributeError m).

Definition on_column {A} (c : ColumnRef) (m : M Z A) : Doc A :=
  on_table (col_table c)
    (zoom tbl_columns set_tbl_columns (zoom_nth (col_ix c) m)).

Definition on_cell {A} (c : CellRef) (m : M Cell A) : Doc A :=
  on_table (cr_table c)
    (zoom tbl_rows set_tbl_rows (zoom_nth (cr_row c)
      (zoom row_cells set_row_cells (zoom_nth (cr_col c) m)))).

Definition on_fill {A} (f : FillRef) (m : M Fill A) : Doc A :=
  match f with
  | fill_of_shape s =>
    on_shape s (zoom_case element_fill with_fill AttributeError m)
  | fill_of_cell c => on_cell c (zoom cell_fill set_cell_fill m)
  end.

Definition on_text_frame {A} (t : TextFrameRef) (m : M TextFrame A) : Doc A :=
  match t with
  | tf_of_shape s =>
    on_shape s (zoom_case element_text_frame with_text_frame AttributeError m)
  | tf_of_cell c => on_cell c (zoom cell_text_frame set_cell_text_frame m)
  end.

Definition on_paragraph {A} (p : ParagraphRef) (m : M Paragraph A) : Doc A :=
  on_text_frame (pr_frame p)
    (zoom tf_paragraphs set_tf_paragraphs (zoom_nth (pr_ix p) m)).

Definition on_run {A} (r : RunRef) (m : M Run A) : Doc A :=
  on_paragraph (rr_paragraph r)
    (zoom p_content set_p_content (zoom_nth (rr_ix r)
      (zoom_case inline_as_run (λ r _, inline_run r) AttributeError m))).

Definition on_font {A} (f : FontRef) (m : M Font A) : Doc A :=
  match f with
  | font_of_run r => on_run r (zoom r_font set_r_font m)
  | font_of_paragraph p => on_paragraph p (zoom p_font set_p_font m)
  end.

(** [fill.gradient_stops] of a fill that is not a gradient: [TypeError]. *)
Definition on_stop {A} (s : StopRef) (m : M GradientStop A) : Doc A :=
  on_fill (st_fill s)
    (zoom_case gradient_stops_of with_gradient_stops TypeError
      (zoom_nth (st_ix s) m)).

(** [fill.fore_color] of a fill that is not solid: [TypeError]. *)
Definition on_color {A} (c : ColorRef) (m : M Color A) : Doc A :=
  match c with
  | fore_color f =>
    on_fill f (zoom_case solid_color (λ c _, fill_solid c) TypeError m)
  | color_of_stop s => on_stop s (zoom gs_color set_gs_color m)
  | color_of_font f => on_font f (zoom f_color set_f_color m)
  end.

(** Attribute access that several classes of the library share. *)
Class HasFill (R : Type) := fill : R → FillRef.
Class HasTextFrame (R : Type) := text_frame : R → TextFrameRef.
Class HasFont (R : Type) := font : R → FontRef.
Class HasColor (R : Type) := color : R → ColorRef.
Class HasText (R : Type) := set_text : R → str → Doc unit.

#[global] Instance shape_fill : HasFill ShapeRef := fill_of_shape.
#[global] Instance cell_has_fill : HasFill CellRef := fill_of_cell.
#[global] Instance shape_text_frame : HasTextFrame ShapeRef := tf_of_shape.
#[global] Instance cell_has_text_frame : HasTextFrame CellRef := tf_of_cell.
#[global] Instance run_font : HasFont RunRef := font_of_run.
#[global] Instance paragraph_font : HasFont ParagraphRef := font_of_paragraph.
#[global] Instance font_color : HasColor FontRef := color_of_font.
#[global] Instance stop_color : HasColor StopRef := color_of_stop.

(** ** The library calls *)

(** [Presentation()]: the default template, 10 in by 7.5 in, no slide. *)
Definition Presentation_ : Presentation := mkPresentation 9144000 6858000 [].

Definition default_layouts : list SlideLayout :=
  [TITLE_SLIDE; TITLE_AND_CONTENT; SECTION_HEADER; TWO_CONTENT; COMPARISON;
   TITLE_ONLY; BLANK; CONTENT_WITH_CAPTION; PICTURE_WITH_CAPTION;
   TITLE_AND_VERTICAL_TEXT; VERTICAL_TITLE_AND_TEXT].

(** [prs.slide_layouts[i]] *)
Definition slide_layouts (i : nat) : Doc SlideLayout :=
  match default_layouts !! i with
  | Some l => mret l
  | None => raise IndexError
  end.

(** The placeholders a new slide clones from its layout (date, footer and
    slide number are not cloned); the blank layout has none. *)
Definition layout_placeholders (l : SlideLayout) : list PP_PLACEHOLDER :=
  match l with
  | TITLE_SLIDE => [PH_CENTER_TITLE; PH_SUBTITLE]
  | TITLE_AND_CONTENT => [PH_TITLE; PH_OBJECT]
  | SECTION_HEADER => [PH_TITLE; PH_BODY]
  | TWO_CONTENT => [PH_TITLE; PH_OBJECT; PH_OBJECT]
  | COMPARISON => [PH_TITLE; PH_BODY; PH_OBJECT; PH_BODY; PH_OBJECT]
  | TITLE_ONLY => [PH_TITLE]
  | BLANK => []
  | CONTENT_WITH_CAPTION => [PH_TITLE; PH_OBJECT; PH_BODY]
  | PICTURE_WITH_CAPTION => [PH_TITLE; PH_PICTURE; PH_BODY]
  | TITLE_AND_VERTICAL_TEXT => [PH_TITLE; PH_BODY]
  | VERTICAL_TITLE_AND_TEXT => [PH_TITLE; PH_BODY]
  end.

(** Shape ids: one more than the largest in use; the shape tree has id 1. *)
Definition next_shape_id (els : list Element) : Z :=
  foldr Z.max 1 (element_id <$> els) + 1.

Definition clone_placeholders (phs : list PP_PLACEHOLDER) : list Element :=
  foldl (λ els ph, els ++ [el_placeholder (next_shape_id els) ph]) [] phs.

(** [prs.slides.add_slide(layout)] *)
Definition add_slide (l : SlideLayout) : Doc SlideRef :=
  prs ← get;
  put (set_slides
         (slides prs ++ [mkSlide l (clone_placeholders (layout_placeholders l))])
         prs);;
  mret (slide_ref (length (slides prs))).

Definition append_element (s : SlideRef) (mk : Z → Element) : Doc ShapeRef :=
  on_slide s
    (sl ← get;
     put (set_sl_shapes (sl_shapes sl ++ [mk (next_shape_id (sl_shapes sl))]) sl);;
     mret (shape_ref s (length (sl_shapes sl)))).

(** [slide.shapes.add_shape(type, left, top, width, height)]: no fill of
    its own, one empty centered paragraph. *)
Definition add_shape (s : SlideRef) (t : MSO_SHAPE) (left top width height : Z)
    : Doc ShapeRef :=
  append_element s (λ id,
    el_shape id (preset t) (mkBox left top width height) fill_inherited
      (mkTextFrame [set_p_alignment (Some CENTER) new_paragraph] None)).

(** [slide.shapes.add_textbox(left, top, width, height)]: explicitly no
    fill, one empty paragraph, no word wrap. *)
Definition add_textbox (s : SlideRef) (left top width height : Z) : Doc ShapeRef :=
  append_element s (λ id,
    el_shape id text_box (mkBox left top width height) fill_none
      (mkTextFrame [new_paragraph] (Some false))).

Definition new_cell : Cell := mkCell fill_inherited (mkTextFrame [new_paragraph] None).

(** Sizes of [n] rows or columns sharing [total]: the last one absorbs the
    rounding of the integer division. *)
Definition share (total : Z) (n : nat) : list Z :=
  replicate (pred n) (total / Z.of_nat n)
  ++ [total - Z.of_nat (pred n) * (total / Z.of_nat n)].

Definition new_tbl (rows cols : nat) (width height : Z) : Table :=
  mkTable (share width cols)
          ((λ h, mkRow h (replicate cols new_cell)) <$> share height rows).

(** [slide.shapes.add_table(rows, cols, left, top, width, height)]: the
    graphic frame that holds the new table. *)
Definition add_table (s : SlideRef) (rows cols : nat) (left top width height : Z)
    : Doc ShapeRef :=
  if bool_decide (rows = 0%nat ∨ cols = 0%nat) then raise ZeroDivisionError
  else append_element s (λ id,
    el_graphic_frame id (mkBox left top width height)
      (new_tbl rows cols width height)).

(** [graphic_frame.table] *)
Definition table (frame : ShapeRef) : Doc TableRef :=
  on_table (table_ref frame) (mret tt);; mret (table_ref frame).

(** [table.columns[i]] and [table.cell(r, c)] *)
Definition columns (t : TableRef) (i : nat) : Doc ColumnRef :=
  on_column (column_ref t i) (mret tt);; mret (column_ref t i).

Definition cell (t : TableRef) (r c : nat) : Doc CellRef :=
  on_cell (cell_ref t r c) (mret tt);; mret (cell_ref t r c).

(** [column.width = v]: the column takes the width, and the graphic frame
    of the table the sum of the column widths. *)
Definition notify_width_changed (e : Element) : Element :=
  match e with
  | el_graphic_frame id b t =>
    el_graphic_frame id
      (mkBox (b_left b) (b_top b) (foldr Z.add 0 (tbl_columns t)) (b_height b)) t
  | _ => e
  end.

Definition set_width (c : ColumnRef) (v : Z) : Doc unit :=
  on_column c (put v);;
  on_shape (tr_frame (col_table c)) (modify notify_width_changed).

(** [fill.solid()]: the fill becomes solid; a solid fill keeps its color. *)
Definition solid (f : FillRef) : Doc unit :=
  on_fill f (modify (λ fl,
    match fl with fill_solid c => fill_solid c | _ => fill_solid color_unset end)).

(** [fill.gradient()]: the fill becomes the library's default gradient, two
    stops of the first accent color and a linear angle; a gradient fill is
    kept. *)
Definition default_gradient : Fill :=
  fill_gradient [mkStop 0 (color_theme ACCENT_1);
                 mkStop 100000 (color_theme ACCENT_1)] (Some 5400000).

Definition gradient (f : FillRef) : Doc unit :=
  on_fill f (modify (λ fl,
    match fl with fill_gradient s a => fill_gradient s a | _ => default_gradient end)).

(** [fill.gradient_angle = v], [v] in degrees counter-clockwise: stored
    clockwise, modulo 360.  [TypeError] off a gradient, [ValueError] on a
    gradient that is not linear. *)
Definition set_gradient_angle (f : FillRef) (v : Z) : Doc unit :=
  on_fill f (λ fl,
    match fl with
    | fill_gradient s (Some _) =>
      (OK tt, fill_gradient s (Some (((360 - v) mod 360) * 60000)))
    | fill_gradient s None => (Raise ValueError, fl)
    | _ => (Raise TypeError, fl)
    end).

(** [fill.gradient_stops[i]] *)
Definition gradient_stops (f : FillRef) (i : nat) : Doc StopRef :=
  on_stop (stop_ref f i) (mret tt);; mret (stop_ref f i).

(** [color.rgb = v] *)
Definition set_rgb (c : ColorRef) (v : rgb) : Doc unit :=
  on_color c (put (color_rgb v)).

(** Appending text to a paragraph: line feeds and vertical tabs become line
    breaks, the pieces between them runs; an empty piece adds no run. *)
Definition text_inlines (t : str) : list Inline :=
  mjoin (imap (λ idx r_str,
           (if bool_decide (idx = 0%nat) then [] else [inline_break])
           ++ (if bool_decide (r_str = []) then []
               else [inline_run (mkRun r_str no_font)]))
         (split_on [LF; VT] t)).

Definition append_text (t : str) (p : Paragraph) : Paragraph :=
  set_p_content (p_content p ++ text_inlines t) p.

(** [text_frame.text = t]: the paragraphs are replaced by one new paragraph
    per line of [t]. *)
Definition text_frame_set_text (t : str) : M TextFrame unit :=
  modify (set_tf_paragraphs
            ((λ line, append_text line new_paragraph) <$> split_on [LF] t)).

(** [shape.text = t] and [cell.text = t] set the text of the text frame. *)
#[global] Instance shape_text : HasText ShapeRef :=
  λ s t, on_text_frame (text_frame s) (text_frame_set_text t).
#[global] Instance cell_text : HasText CellRef :=
  λ c t, on_text_frame (text_frame c) (text_frame_set_text t).

(** [paragraph.text = t]: the content is removed, the properties stay. *)
#[global] Instance paragraph_text_set : HasText ParagraphRef :=
  λ p t, on_paragraph p (modify (λ p, append_text t (set_p_content [] p))).

(** [run.text = t] *)
#[global] Instance run_text : HasText RunRef :=
  λ r t, on_run r (modify (set_r_text t)).

(** [text_frame.word_wrap = b] *)
Definition set_word_wrap (t : TextFrameRef) (b : bool) : Doc unit :=
  on_text_frame t (modify (set_tf_word_wrap (Some b))).

(** [text_frame.paragraphs[i]] *)
Definition paragraphs (t : TextFrameRef) (i : nat) : Doc ParagraphRef :=
  on_paragraph (paragraph_ref t i) (mret tt);; mret (paragraph_ref t i).

(** [text_frame.paragraphs], to iterate over. *)
Definition all_paragraphs (t : TextFrameRef) : Doc (list ParagraphRef) :=
  n ← on_text_frame t (tf ← get; mret (length (tf_paragraphs tf)));
  mret (paragraph_ref t <$> seq 0 n).

(** [text_frame.add_paragraph()] *)
Definition add_paragraph (t : TextFrameRef) : Doc ParagraphRef :=
  on_text_frame t
    (tf ← get;
     put (set_tf_paragraphs (tf_paragraphs tf ++ [new_paragraph]) tf);;
     mret (paragraph_ref t (length (tf_paragraphs tf)))).

(** [paragraph.add_run()] *)
Definition add_run (p : ParagraphRef) : Doc RunRef :=
  on_paragraph p
    (pg ← get;
     put (set_p_content (p_content pg ++ [inline_run (mkRun [] no_font)]) pg);;
     mret (run_ref p (length (p_content pg)))).

(** [paragraph.alignment = a], [paragraph.level = n] *)
Definition set_alignment (p : ParagraphRef) (a : PP_ALIGN) : Doc unit :=
  on_paragraph p (modify (set_p_alignment (Some a))).

Definition set_level (p : ParagraphRef) (n : Z) : Doc unit :=
  if bool_decide (0 ≤ n ≤ 8) then on_paragraph p (modify (set_p_level n))
  else raise ValueError.

(** [font.size = v], [font.bold = b], [font.italic = b], [font.underline = b] *)
Definition set_size (f : FontRef) (v : Z) : Doc unit :=
  on_font f (modify (set_f_size (Some v))).
Definition set_bold (f : FontRef) (b : bool) : Doc unit :=
  on_font f (modify (set_f_bold (Some b))).
Definition set_italic (f : FontRef) (b : bool) : Doc unit :=
  on_font f (modify (set_f_italic (Some b))).
Definition set_underline (f : FontRef) (b : bool) : Doc unit :=
  on_font f (modify (set_f_underline (Some b))).

#[global] Hint Mode HasFill ! : typeclass_instances.
#[global] Hint Mode HasTextFrame ! : typeclass_instances.
#[global] Hint Mode HasFont ! : typeclass_instances.
#[global] Hint Mode HasColor ! : typeclass_instances.
#[global] Hint Mode HasText ! : typeclass_instances.

(** ** Paths: [os.path] on POSIX *)

Definition SEP : N := 47%N.

Definition is_sep (c : N) : bool := bool_decide (c = SEP).

Definition starts_with_sep (p : str) : bool :=
  match p with c :: _ => is_sep c | [] => false end.

Definition ends_with_sep (p : str) : bool :=
  match last p with Some c => is_sep c | None => false end.

Definition no_sep (p : str) : bool := forallb (λ c, negb (is_sep c)) p.

(** One step of [os.path.join]: an absolute component restarts the path. *)
Definition join2 (path b : str) : str :=
  if starts_with_sep b then b
  else if bool_decide (path = []) || ends_with_sep path then path ++ b
  else path ++ SEP :: b.

(** [os.path.join(a, *ps)] *)
Definition os_path_join (a : str) (ps : list str) : str := foldl join2 a ps.

(** [p[:i], p[i:]] for [i = p.rfind('/') + 1] *)
Fixpoint split_last_sep (p : str) : str * str :=
  match p with
  | [] => ([], [])
  | c :: q =>
    match split_last_sep q with
    | ([], t) => if is_sep c then ([c], t) else ([], c :: t)
    | (h, t) => (c :: h, t)
    end
  end.

Fixpoint lstrip_sep (p : str) : str :=
  match p with
  | c :: q => if is_sep c then lstrip_sep q else p
  | [] => []
  end.

(** [p.rstrip('/')] *)
Definition rstrip_sep (p : str) : str := reverse (lstrip_sep (reverse p)).

(** [os.path.dirname(p)] *)
Definition os_path_dirname (p : str) : str :=
  let head := (split_last_sep p).1 in
  if bool_decide (head ≠ []) && negb (forallb is_sep head)
  then rstrip_sep head else head.

(** The directories above [p]: every prefix of [p] that stops in front of a
    separator, shortest first. *)
Fixpoint dir_prefixes (seen rest : str) : list str :=
  match rest with
  | [] => []
  | c :: rest' =>
    (if is_sep c && negb (bool_decide (seen = [])) && negb (ends_with_sep seen)
     then [seen] else [])
    ++ dir_prefixes (seen ++ [c]) rest'
  end.

Definition ancestors (p : str) : list str := dir_prefixes [] p.

(** ** The world: a file system and a record of the calls made on it *)

Inductive Node :=
| Dir
| File (doc : Presentation).

Inductive Event :=
| ev_makedirs (path : str)
| ev_save (path : str) (doc : Presentation)
| ev_print (line : str).

(** The file system is keyed by the path as it is spelled: [..] and links
    are not resolved.  It is to be read at the paths the script names, the
    output directory, those above it and the fixtures; it says nothing of
    another spelling of the same place. *)
Record World := mkWorld { fs : gmap str Node; events : list Event }.

Abbreviation IO := (M World).

Definition record (e : Event) : IO unit :=
  modify (λ w, mkWorld (fs w) (events w ++ [e])).

Definition set_node (p : str) (n : Node) : IO unit :=
  modify (λ w, mkWorld (<[p := n]> (fs w)) (events w)).

(** [print(line)] *)
Definition print (line : str) : IO unit := record (ev_print line).

(** [os.mkdir(p)] when asked by [makedirs] for a directory on the way. *)
Definition mkdir_on_way (p : str) : IO unit :=
  w ← get;
  match fs w !! p with
  | Some Dir => mret tt
  | Some (File _) => raise NotADirectoryError
  | None => set_node p Dir
  end.

(** [os.makedirs(name, exist_ok=exist_ok)]: the directory and those above
    it that are missing are created.  A directory already there is an error
    only without [exist_ok]; a file in its place or on the way is one. *)
Definition makedirs (name : str) (exist_ok : bool) : IO unit :=
  record (ev_makedirs name);;
  w ← get;
  match fs w !! name with
  | Some Dir => if exist_ok then mret tt else raise FileExistsError
  | Some (File _) => raise FileExistsError
  | None => for_each (ancestors name) mkdir_on_way;; set_node name Dir
  end.

(** [prs.save(path)]: the document becomes the content of the file, new or
    overwritten.  The directory of the file must exist, and the path must
    not be a directory. *)
Definition save (prs : Presentation) (path : str) : IO unit :=
  record (ev_save path prs);;
  w ← get;
  match fs w !! path with
  | Some Dir => raise IsADirectoryError
  | _ =>
    let parent := os_path_dirname path in
    if bool_decide (parent = []) then set_node path (File prs)
    else match fs w !! parent with
         | Some Dir => set_node path (File prs)
         | Some (File _) => raise NotADirectoryError
         | None => raise FileNotFoundError
         end
  end.

(** [prs = Presentation()] followed by the statements [m] that build on
    [prs]: the presentation is local to the function that makes it. *)
Definition construct (m : Doc unit) : IO Presentation :=
  λ w, match m Presentation_ with
       | (OK _, prs) => (OK prs, w)
       | (Raise e, _) => (Raise e, w)
       end.

(** ** The script *)

Section Script.

(** [__file__]: where the script is run from. *)
Variable __file__ : str.

Definition OUTPUT_DIR : str :=
  os_path_join (os_path_dirname __file__) [py ".."; py "tests"; py "fixtures"].

(** Ensure the output directory exists. *)
Definition ensure_output_dir : IO unit :=
  makedirs OUTPUT_DIR true.

(** Create a PPTX with various basic shapes: the statements on [prs]. *)
Definition basic_shapes : Doc unit :=
  modify (set_slide_width (Inches 10));;
  modify (set_slide_height (Inches 7.5));;

  slide_layout ← slide_layouts 6;  (* Blank layout *)
  slide ← add_slide slide_layout;

  (* Rectangle *)
  shape ← add_shape slide RECTANGLE (Inches 0.5) (Inches 0.5) (Inches 2) (Inches 1);
  solid (fill shape);;
  set_rgb (fore_color (fill shape)) (RGBColor 0x41 0x69 0xE1);;  (* Royal Blue *)
  set_text shape (py "Rectangle");;

  (* Rounded Rectangle *)
  shape ← add_shape slide ROUNDED_RECTANGLE (Inches 3) (Inches 0.5) (Inches 2) (Inches 1);
  solid (fill shape);;
  set_rgb (fore_color (fill shape)) (RGBColor 0x32 0xCD 0x32);;  (* Lime Green *)
  set_text shape (py "Rounded Rect");;

  (* Ellipse *)
  shape ← add_shape slide OVAL (Inches 5.5) (Inches 0.5) (Inches 2) (Inches 1);
  solid (fill shape);;
  set_rgb (fore_color (fill shape)) (RGBColor 0xFF 0x69 0xB4);;  (* Hot Pink *)
  set_text shape (py "Ellipse");;

  (* Triangle *)
  shape ← add_shape slide ISOSCELES_TRIANGLE (Inches 0.5) (Inches 2) (Inches 2) (Inches 1.5);
  solid (fill shape);;
  set_rgb (fore_color (fill shape)) (RGBColor 0xFF 0xA5 0x00);;  (* Orange *)

  (* Diamond *)
  shape ← add_shape slide DIAMOND (Inches 3) (Inches 2) (Inches 2) (Inches 1.5);
  solid (fill shape);;
  set_rgb (fore_color (fill shape)) (RGBColor 0x94 0x00 0xD3);;  (* Purple *)

  (* Star *)
  shape ← add_shape slide STAR_5_POINT (Inches 5.5) (Inches 2) (Inches 2) (Inches 1.5);
  solid (fill shape);;
  set_rgb (fore_color (fill shape)) (RGBColor 0xFF 0xD7 0x00);;  (* Gold *)

  (* Arrow *)
  shape ← add_shape slide RIGHT_ARROW (Inches 0.5) (Inches 4) (Inches 2.5) (Inches 1);
  solid (fill shape);;
  set_rgb (fore_color (fill shape)) (RGBColor 0x00 0x80 0x80);;  (* Teal *)

  (* Heart *)
  shape ← add_shape slide HEART (Inches 3.5) (Inches 4) (Inches 1.5) (Inches 1.5);
  solid (fill shape);;
  set_rgb (fore_color (fill shape)) (RGBColor 0xFF 0x00 0x00);;  (* Red *)

  (* Cloud *)
  shape ← add_shape slide CLOUD (Inches 5.5) (Inches 4) (Inches 2.5) (Inches 1.5);
  solid (fill shape);;
  set_rgb (fore_color (fill shape)) (RGBColor 0x87 0xCE 0xEB).  (* Sky Blue *)

Definition create_basic_shapes_pptx : IO unit :=
  prs ← construct basic_shapes;
  save prs (os_path_join OUTPUT_DIR [py "basic-shapes.pptx"]);;
  print (py "Created basic-shapes.pptx").

(** Create a PPTX with various text formatting options. *)
Definition text_formatting : Doc unit :=
  slide_layout ← slide_layouts 6;  (* Blank *)
  slide ← add_slide slide_layout;

  (* Title *)
  shape ← add_textbox slide (Inches 0.5) (Inches 0.3) (Inches 9) (Inches 0.8);
  let tf := text_frame shape in
  p ← paragraphs tf 0;
  set_alignment p CENTER;;
  run ← add_run p;
  set_text run (py "Text Formatting Test");;
  set_size (font run) (Pt 36);;
  set_bold (font run) true;;
  set_rgb (color (font run)) (RGBColor 0x33 0x33 0x33);;

  (* Bold, Italic, Underline *)
  shape ← add_textbox slide (Inches 0.5) (Inches 1.2) (Inches 4) (Inches 0.5);
  let tf := text_frame shape in
  p ← paragraphs tf 0;

  run ← add_run p;
  set_text run (py "Bold ");;
  set_bold (font run) true;;
  set_size (font run) (Pt 18);;

  run ← add_run p;
  set_text run (py "Italic ");;
  set_italic (font run) true;;
  set_size (font run) (Pt 18);;

  run ← add_run p;
  set_text run (py "Underline ");;
  set_underline (font run) true;;
  set_size (font run) (Pt 18);;

  run ← add_run p;
  set_text run (py "Strikethrough");;
  set_size (font run) (Pt 18);;
  (* Note: strikethrough not directly supported in python-pptx *)

  (* Different colors *)
  shape ← add_textbox slide (Inches 0.5) (Inches 1.8) (Inches 8) (Inches 0.5);
  let tf := text_frame shape in
  p ← paragraphs tf 0;

  let colors := [
    (py "Red ", RGBColor 0xFF 0x00 0x00);
    (py "Green ", RGBColor 0x00 0x80 0x00);
    (py "Blue ", RGBColor 0x00 0x00 0xFF);
    (py "Orange ", RGBColor 0xFF 0xA5 0x00);
    (py "Purple", RGBColor 0x80 0x00 0x80)
  ] in

  for_each colors (λ '(text, color_),
    run ← add_run p;
    set_text run text;;
    set_rgb (color (font run)) color_;;
    set_size (font run) (Pt 18));;

  (* Different sizes *)
  shape ← add_textbox slide (Inches 0.5) (Inches 2.4) (Inches 8) (Inches 1);
  let tf := text_frame shape in
  p ← paragraphs tf 0;

  let sizes := [12; 18; 24; 36; 48] in
  for_each sizes (λ size,
    run ← add_run p;
    set_text run (str_of_int size ++ py "pt ");;
    set_size (font run) (Pt (inject_Z size)));;

  (* Bullet list *)
  shape ← add_textbox slide (Inches 0.5) (Inches 3.8) (Inches 4) (Inches 2);
  let tf := text_frame shape in
  set_word_wrap tf true;;

  let items := [py "First bullet item"; py "Second bullet item"; py "Third bullet item"] in
  for_each (enumerate 0 items) (λ '(i, item),
    p ← (if bool_decide (i = 0%nat) then paragraphs tf 0 else add_paragraph tf);
    set_text p item;;
    set_level p 0;;
    set_size (font p) (Pt 16));;

  (* Numbered list (simulated) *)
  shape ← add_textbox slide (Inches 5) (Inches 3.8) (Inches 4) (Inches 2);
  let tf := text_frame shape in
  set_word_wrap tf true;;

  let items := [py "1. First numbered item"; py "2. Second numbered item"; py "3. Third numbered item"] in
  for_each (enumerate 0 items) (λ '(i, item),
    p ← (if bool_decide (i = 0%nat) then paragraphs tf 0 else add_paragraph tf);
    set_text p item;;
    set_size (font p) (Pt 16)).

Definition create_text_formatting_pptx : IO unit :=
  prs ← construct text_formatting;
  save prs (os_path_join OUTPUT_DIR [py "text-formatting.pptx"]);;
  print (py "Created text-formatting.pptx").

(** Create a PPTX with gradient fills. *)
Definition gradients : Doc unit :=
  slide_layout ← slide_layouts 6;
  slide ← add_slide slide_layout;

  (* Linear gradient (horizontal) *)
  shape ← add_shape slide RECTANGLE (Inches 0.5) (Inches 0.5) (Inches 3) (Inches 2);
  let fill_ := fill shape in
  gradient fill_;;
  set_gradient_angle fill_ 0;;
  stop ← gradient_stops fill_ 0;
  set_rgb (color stop) (RGBColor 0xFF 0x00 0x00);;
  stop ← gradient_stops fill_ 1;
  set_rgb (color stop) (RGBColor 0x00 0x00 0xFF);;
  set_text shape (py "Linear H");;

  (* Linear gradient (vertical) *)
  shape ← add_shape slide RECTANGLE (Inches 4) (Inches 0.5) (Inches 3) (Inches 2);
  let fill_ := fill shape in
  gradient fill_;;
  set_gradient_angle fill_ 90;;
  stop ← gradient_stops fill_ 0;
  set_rgb (color stop) (RGBColor 0x00 0xFF 0x00);;
  stop ← gradient_stops fill_ 1;
  set_rgb (color stop) (RGBColor 0xFF 0xFF 0x00);;
  set_text shape (py "Linear V");;

  (* Diagonal gradient *)
  shape ← add_shape slide RECTANGLE (Inches 0.5) (Inches 3) (Inches 3) (Inches 2);
  let fill_ := fill shape in
  gradient fill_;;
  set_gradient_angle fill_ 45;;
  stop ← gradient_stops fill_ 0;
  set_rgb (color stop) (RGBColor 0x80 0x00 0x80);;
  stop ← gradient_stops fill_ 1;
  set_rgb (color stop) (RGBColor 0xFF 0xA5 0x00);;
  set_text shape (py "Diagonal");;

  (* Gradient on rounded rect *)
  shape ← add_shape slide ROUNDED_RECTANGLE (Inches 4) (Inches 3) (Inches 3) (Inches 2);
  let fill_ := fill shape in
  gradient fill_;;
  set_gradient_angle fill_ 135;;
  stop ← gradient_stops fill_ 0;
  set_rgb (color stop) (RGBColor 0x00 0x80 0x80);;
  stop ← gradient_stops fill_ 1;
  set_rgb (color stop) (RGBColor 0xFF 0x69 0xB4);;
  set_text shape (py "Rounded Gradient").

Definition create_gradients_pptx : IO unit :=
  prs ← construct gradients;
  save prs (os_path_join OUTPUT_DIR [py "gradients.pptx"]);;
  print (py "Created gradients.pptx").

(** Create a PPTX with images (placeholder for now). *)
Definition images : Doc unit :=
  slide_layout ← slide_layouts 6;
  slide ← add_slide slide_layout;

  (* Add a text note about images *)
  shape ← add_textbox slide (Inches 1) (Inches 2) (Inches 8) (Inches 2);
  let tf := text_frame shape in
  p ← paragraphs tf 0;
  set_text p (py "Image test - add images manually or use a sample image");;
  set_size (font p) (Pt 24);;
  set_alignment p CENTER.

Definition create_images_pptx : IO unit :=
  prs ← construct images;
  save prs (os_path_join OUTPUT_DIR [py "images.pptx"]);;
  print (py "Created images.pptx (placeholder)").

(** Create a PPTX with tables. *)
Definition tables : Doc unit :=
  slide_layout ← slide_layouts 6;
  slide ← add_slide slide_layout;

  (* Title *)
  shape ← add_textbox slide (Inches 0.5) (Inches 0.3) (Inches 9) (Inches 0.6);
  let tf := text_frame shape in
  p ← paragraphs tf 0;
  set_text p (py "Table Test");;
  set_size (font p) (Pt 28);;
  set_bold (font p) true;;
  set_alignment p CENTER;;

  (* Simple table *)
  let '(rows, cols) := (4%nat, 3%nat) in
  let left := Inches 1 in
  let top := Inches 1.2 in
  let width := Inches 8 in
  let height := Inches 2 in

  frame ← add_table slide rows cols left top width height;
  table ← table frame;

  (* Set column widths *)
  for_each (seq 0 cols) (λ col,
    column ← columns table col;
    set_width column (Inches 2.5));;

  (* Header row *)
  let headers := [py "Name"; py "Department"; py "Status"] in
  for_each (enumerate 0 headers) (λ '(col, header),
    cell ← cell table 0 col;
    set_text cell header;;
    solid (fill cell);;
    set_rgb (fore_color (fill cell)) (RGBColor 0x41 0x69 0xE1);;
    p ← paragraphs (text_frame cell) 0;
    set_bold (font p) true;;
    set_rgb (color (font p)) (RGBColor 0xFF 0xFF 0xFF));;

  (* Data rows *)
  let data := [
    [py "Alice Smith"; py "Engineering"; py "Active"];
    [py "Bob Johnson"; py "Marketing"; py "Active"];
    [py "Carol Williams"; py "Sales"; py "On Leave"]
  ] in

  for_each (enumerate 1 data) (λ '(row_idx, row_data),
    for_each (enumerate 0 row_data) (λ '(col_idx, value),
      cell ← cell table row_idx col_idx;
      set_text cell value)).

Definition create_tables_pptx : IO unit :=
  prs ← construct tables;
  save prs (os_path_join OUTPUT_DIR [py "tables.pptx"]);;
  print (py "Created tables.pptx").

(** Create a PPTX with multiple slides. *)
Definition multi_slide : Doc unit :=
  (* Slide 1 - Title *)
  slide_layout ← slide_layouts 6;
  slide ← add_slide slide_layout;

  shape ← add_textbox slide (Inches 1) (Inches 2.5) (Inches 8) (Inches 1.5);
  let tf := text_frame shape in
  p ← paragraphs tf 0;
  set_text p (py "Multi-Slide Presentation");;
  set_size (font p) (Pt 44);;
  set_bold (font p) true;;
  set_alignment p CENTER;;

  p ← add_paragraph tf;
  set_text p (py "Testing slide navigation");;
  set_size (font p) (Pt 24);;
  set_alignment p CENTER;;

  (* Slide 2 - Content *)
  slide ← add_slide slide_layout;

  shape ← add_textbox slide (Inches 0.5) (Inches 0.5) (Inches 9) (Inches 0.8);
  let tf := text_frame shape in
  p ← paragraphs tf 0;
  set_text p (py "Slide 2: Content Slide");;
  set_size (font p) (Pt 32);;
  set_bold (font p) true;;

  shape ← add_shape slide RECTANGLE (Inches 1) (Inches 2) (Inches 3) (Inches 2);
  solid (fill shape);;
  set_rgb (fore_color (fill shape)) (RGBColor 0x41 0x69 0xE1);;
  set_text shape (py "Shape 1");;

  shape ← add_shape slide OVAL (Inches 5) (Inches 2) (Inches 3) (Inches 2);
  solid (fill shape);;
  set_rgb (fore_color (fill shape)) (RGBColor 0x32 0xCD 0x32);;
  set_text shape (py "Shape 2");;

  (* Slide 3 - More content *)
  slide ← add_slide slide_layout;

  shape ← add_textbox slide (Inches 0.5) (Inches 0.5) (Inches 9) (Inches 0.8);
  let tf := text_frame shape in
  p ← paragraphs tf 0;
  set_text p (py "Slide 3: Final Slide");;
  set_size (font p) (Pt 32);;
  set_bold (font p) true;;

  shape ← add_textbox slide (Inches 1) (Inches 2) (Inches 8) (Inches 3);
  let tf := text_frame shape in
  set_word_wrap tf true;;
  p ← paragraphs tf 0;
  set_text p (py "This is the final slide of the presentation. It contains text content to verify multi-slide navigation works correctly.");;
  set_size (font p) (Pt 18).

Definition create_multi_slide_pptx : IO unit :=
  prs ← construct multi_slide;
  save prs (os_path_join OUTPUT_DIR [py "multi-slide.pptx"]);;
  print (py "Created multi-slide.pptx").

(** Create a comprehensive test PPTX with many features. *)
Definition comprehensive : Doc unit :=
  modify (set_slide_width (Inches 10));;
  modify (set_slide_height (Inches 7.5));;

  slide_layout ← slide_layouts 6;
  slide ← add_slide slide_layout;

  (* Title *)
  shape ← add_textbox slide (Inches 0.5) (Inches 0.2) (Inches 9) (Inches 0.7);
  let tf := text_frame shape in
  p ← paragraphs tf 0;
  set_text p (py "Comprehensive Feature Test");;
  set_size (font p) (Pt 32);;
  set_bold (font p) true;;
  set_alignment p CENTER;;
  set_rgb (color (font p)) (RGBColor 0x1a 0x1a 0x2e);;

  (* Row 1: Basic shapes with different fills *)
  let shapes_data := [
    (RECTANGLE, Inches 0.3, Inches 1, Inches 1.8, Inches 1.2, RGBColor 0x41 0x69 0xE1, py "Rect");
    (ROUNDED_RECTANGLE, Inches 2.3, Inches 1, Inches 1.8, Inches 1.2, RGBColor 0x32 0xCD 0x32, py "Round");
    (OVAL, Inches 4.3, Inches 1, Inches 1.8, Inches 1.2, RGBColor 0xFF 0x69 0xB4, py "Oval");
    (DIAMOND, Inches 6.3, Inches 1, Inches 1.8, Inches 1.2, RGBColor 0xFF 0xA5 0x00, py "Diamond");
    (STAR_5_POINT, Inches 8.1, Inches 1, Inches 1.6, Inches 1.2, RGBColor 0xFF 0xD7 0x00, py "Star")
  ] in

  for_each shapes_data (λ '(shape_type, left_, top_, width_, height_, color_, text),
    shape ← add_shape slide shape_type left_ top_ width_ height_;
    solid (fill shape);;
    set_rgb (fore_color (fill shape)) color_;;
    set_text shape text;;
    ps ← all_paragraphs (text_frame shape);
    for_each ps (λ p,
      set_size (font p) (Pt 12);;
      set_bold (font p) true;;
      set_alignment p CENTER));;

  (* Row 2: Arrows and more shapes *)
  shape ← add_shape slide RIGHT_ARROW (Inches 0.3) (Inches 2.5) (Inches 2) (Inches 0.8);
  solid (fill shape);;
  set_rgb (fore_color (fill shape)) (RGBColor 0x00 0x80 0x80);;

  shape ← add_shape slide LEFT_ARROW (Inches 2.5) (Inches 2.5) (Inches 2) (Inches 0.8);
  solid (fill shape);;
  set_rgb (fore_color (fill shape)) (RGBColor 0x80 0x00 0x80);;

  shape ← add_shape slide CHEVRON (Inches 4.7) (Inches 2.5) (Inches 2) (Inches 0.8);
  solid (fill shape);;
  set_rgb (fore_color (fill shape)) (RGBColor 0xDC 0x14 0x3C);;

  shape ← add_shape slide HEXAGON (Inches 6.9) (Inches 2.4) (Inches 1.4) (Inches 1);
  solid (fill shape);;
  set_rgb (fore_color (fill shape)) (RGBColor 0x4B 0x00 0x82);;

  shape ← add_shape slide HEART (Inches 8.5) (Inches 2.4) (Inches 1.2) (Inches 1);
  solid (fill shape);;
  set_rgb (fore_color (fill shape)) (RGBColor 0xFF 0x00 0x00);;

  (* Row 3: Text formatting samples *)
  shape ← add_textbox slide (Inches 0.3) (Inches 3.6) (Inches 4.5) (Inches 1.2);
  let tf := text_frame shape in
  set_word_wrap tf true;;

  p ← paragraphs tf 0;
  run ← add_run p;
  set_text run (py "Bold ");;
  set_bold (font run) true;;
  set_size (font run) (Pt 14);;

  run ← add_run p;
  set_text run (py "Italic ");;
  set_italic (font run) true;;
  set_size (font run) (Pt 14);;

  run ← add_run p;
  set_text run (py "Underline ");;
  set_underline (font run) true;;
  set_size (font run) (Pt 14);;

  run ← add_run p;
  set_text run (py "Color");;
  set_rgb (color (font run)) (RGBColor 0xFF 0x00 0x00);;
  set_size (font run) (Pt 14);;

  (* Gradient shape *)
  shape ← add_shape slide ROUNDED_RECTANGLE (Inches 5) (Inches 3.6) (Inches 4.5) (Inches 1.2);
  let fill_ := fill shape in
  gradient fill_;;
  set_gradient_angle fill_ 45;;
  stop ← gradient_stops fill_ 0;
  set_rgb (color stop) (RGBColor 0x66 0x00 0xFF);;
  stop ← gradient_stops fill_ 1;
  set_rgb (color stop) (RGBColor 0x00 0xFF 0xFF);;
  set_text shape (py "Gradient Fill");;
  ps ← all_paragraphs (text_frame shape);
  for_each ps (λ p,
    set_size (font p) (Pt 14);;
    set_bold (font p) true;;
    set_rgb (color (font p)) (RGBColor 0xFF 0xFF 0xFF);;
    set_alignment p CENTER);;

  (* Row 4: Small table *)
  frame ← add_table slide 2 3 (Inches 0.3) (Inches 5.2) (Inches 5) (Inches 1);
  table ← table frame;

  let headers := [py "Column A"; py "Column B"; py "Column C"] in
  for_each (enumerate 0 headers) (λ '(col, header),
    cell ← cell table 0 col;
    set_text cell header;;
    solid (fill cell);;
    set_rgb (fore_color (fill cell)) (RGBColor 0x2C 0x3E 0x50);;
    p ← paragraphs (text_frame cell) 0;
    set_bold (font p) true;;
    set_size (font p) (Pt 11);;
    set_rgb (color (font p)) (RGBColor 0xFF 0xFF 0xFF));;

  let data := [py "Value 1"; py "Value 2"; py "Value 3"] in
  for_each (enumerate 0 data) (λ '(col, value),
    cell ← cell table 1 col;
    set_text cell value;;
    p ← paragraphs (text_frame cell) 0;
    set_size (font p) (Pt 11));;

  (* Text box with bullet points *)
  shape ← add_textbox slide (Inches 5.5) (Inches 5.2) (Inches 4) (Inches 1.5);
  let tf := text_frame shape in
  set_word_wrap tf true;;

  let bullets := [py "First item"; py "Second item"; py "Third item"] in
  for_each (enumerate 0 bullets) (λ '(i, bullet),
    p ← (if bool_decide (i = 0%nat) then paragraphs tf 0 else add_paragraph tf);
    set_text p (py "â€¢ " ++ bullet);;
    set_size (font p) (Pt 12)).

Definition create_comprehensive_pptx : IO unit :=
  prs ← construct comprehensive;
  save prs (os_path_join OUTPUT_DIR [py "comprehensive.pptx"]);;
  print (py "Created comprehensive.pptx").

(** Generate all test PPTX files. *)
Definition main : IO unit :=
  ensure_output_dir;;

  print (py "Generating test PPTX files in " ++ OUTPUT_DIR ++ py "...");;
  print (str_mul (py "-") 50);;

  create_basic_shapes_pptx;;
  create_text_formatting_pptx;;
  create_gradients_pptx;;
  create_tables_pptx;;
  create_multi_slide_pptx;;
  create_comprehensive_pptx;;
  create_images_pptx;;

  print (str_mul (py "-") 50);;
  print (py "Done! Test files created in tests/fixtures/").

End Script.

(** ** Looking at the results *)

(** The document a recipe has built when it calls [save], and whether its
    statements ran to the end. *)
Definition document (m : Doc unit) : Presentation := (m Presentation_).2.

Definition completes (m : Doc unit) : Prop := (m Presentation_).1 = OK tt.

Arguments document : simpl never.

(** The path of a fixture. *)
Definition fixture_path (__file__ name : str) : str :=
  os_path_join (OUTPUT_DIR __file__) [name].

(** A recipe produces [prs] under [name]: wherever the script lies and
    whatever the world, running it is saving [prs] at the fixture path and
    printing [msg]. *)
Definition produces (recipe : str → IO unit) (name msg : str)
    (prs : Presentation) : Prop :=
  ∀ (__file__ : str) (w : World),
    recipe __file__ w = (save prs (fixture_path __file__ name);; print msg) w.

(** The recipes, in the order [main] calls them, and the file names. *)
Definition recipes : list (str → IO unit) :=
  [create_basic_shapes_pptx; create_text_formatting_pptx; create_gradients_pptx;
   create_tables_pptx; create_multi_slide_pptx; create_comprehensive_pptx;
   create_images_pptx].

Definition fixture_stems : list str :=
  [py "basic-shapes"; py "text-formatting"; py "gradients"; py "tables";
   py "multi-slide"; py "comprehensive"; py "images"].

Definition fixture_names : list str := (λ stem, stem ++ py ".pptx") <$> fixture_stems.

Definition fixture_documents : list Presentation :=
  document <$> [basic_shapes; text_formatting; gradients; tables; multi_slide;
                comprehensive; images].

Definition fixture_messages : list str :=
  [py "Created basic-shapes.pptx"; py "Created text-formatting.pptx";
   py "Created gradients.pptx"; py "Created tables.pptx";
   py "Created multi-slide.pptx"; py "Created comprehensive.pptx";
   py "Created images.pptx (placeholder)"].

(** What a run adds to the record of calls. *)
Definition emitted {A} (act : IO A) (w : World) : list Event :=
  drop (length (events w)) (events (act w).2).

Definition saves (es : list Event) : list (str * Presentation) :=
  omap (λ e, match e with ev_save p d => Some (p, d) | _ => None end) es.

Definition is_print (e : Event) : Prop :=
  match e with ev_print _ => True | _ => False end.

(** The file system after [makedirs p] has created what was missing. *)
Definition with_dirs (p : str) (m : gmap str Node) : gmap str Node :=
  <[p := Dir]> (foldl (λ m d, <[d := Dir]> m) m (ancestors p)).

Definition with_files (files : list (str * Presentation)) (m : gmap str Node)
    : gmap str Node :=
  foldl (λ m '(p, d), <[p := File d]> m) m files.

(** Slides as a reader lists them. *)
Definition is_auto_shape (e : Element) : bool :=
  match e with el_shape _ (preset _) _ _ _ => true | _ => false end.

Definition auto_shapes (sl : Slide) : list Element := filter is_auto_shape (sl_shapes sl).

Definition text_boxes (sl : Slide) : list TextFrame :=
  omap (λ e, match e with el_shape _ text_box _ _ tf => Some tf | _ => None end)
       (sl_shapes sl).

Definition slide_tables (sl : Slide) : list Table := omap element_table (sl_shapes sl).

Definition label (e : Element) : str :=
  match element_text_frame e with Some tf => text_frame_text tf | None => [] end.

Definition has_label (e : Element) : bool := negb (bool_decide (label e = [])).

Definition multi_run (p : Paragraph) : bool := (1 <? length (runs p))%nat.

Definition has_multi_run_paragraph (tf : TextFrame) : bool :=
  existsb multi_run (tf_paragraphs tf).

Definition is_gradient (f : Fill) : bool :=
  match f with fill_gradient _ _ => true | _ => false end.

Definition is_solid (f : Fill) : bool :=
  match f with fill_solid _ => true | _ => false end.

Definition stop_colors (f : Fill) : list Color :=
  match f with fill_gradient stops _ => gs_color <$> stops | _ => [] end.

Definition gradient_angle (f : Fill) : option Z :=
  match f with fill_gradient _ (Some a) => Some (gradient_angle_of a) | _ => None end.

Definition white : Color := color_rgb (RGBColor 0xFF 0xFF 0xFF).

(** A text frame whose text is all bold and white, and there is some. *)
Definition bold_white (tf : TextFrame) : Prop :=
  text_frame_text tf ≠ [] ∧
  Forall (λ p, Forall (λ r, effective_bold p r = Some true
                            ∧ effective_color p r = white) (runs p))
         (tf_paragraphs tf).

(** A text frame that holds [t] as plain text: one paragraph, one run,
    nothing set on either. *)
Definition plain_text (t : str) : TextFrame :=
  mkTextFrame [mkParagraph [inline_run (mkRun t no_font)] None 0 bu_inherited no_font]
              None.

(** A list item as the text recipe writes it: one run without properties
    of its own, in a paragraph at level 0 whose only property is the
    default font size. *)
Definition list_item (size : Z) (t : str) : Paragraph :=
  mkParagraph [inline_run (mkRun t no_font)] None 0 bu_inherited
              (set_f_size (Some size) no_font).

(** Windows-1252: the code point a byte stands for. *)
Definition cp1252 (b : N) : option N :=
  if (b <? 0x80)%N || ((0xA0 <=? b) && (b <? 0x100))%N then Some b
  else
    [Some 0x20AC; None; Some 0x201A; Some 0x0192; Some 0x201E; Some 0x2026;
     Some 0x2020; Some 0x2021; Some 0x02C6; Some 0x2030; Some 0x0160;
     Some 0x2039; Some 0x0152; None; Some 0x017D; None;
     None; Some 0x2018; Some 0x2019; Some 0x201C; Some 0x201D; Some 0x2022;
     Some 0x2013; Some 0x2014; Some 0x02DC; Some 0x2122; Some 0x0161;
     Some 0x203A; Some 0x0153; None; Some 0x017E; Some 0x0178]%N
    !! N.to_nat (b - 0x80) ≫= id.

(** A string is the mojibake of another when it is the Windows-1252 reading
    of UTF-8 bytes that decode to the other. *)
Definition mojibake_of (garbled intended : str) : Prop :=
  ∃ bytes, utf8_decode bytes = Some intended ∧ mapM cp1252 bytes = Some garbled.

Definition BULLET : N := 0x2022%N.

(** The file system after [makedirs p] with [exist_ok], when it succeeds:
    untouched when [p] is a directory already. *)
Definition after_makedirs (p : str) (m : gmap str Node) : gmap str Node :=
  match m !! p with
  | Some Dir => m
  | _ => with_dirs p m
  end.

(** Nothing but directories where [makedirs p] has to pass. *)
Definition no_file_on_the_way (p : str) (m : gmap str Node) : Prop :=
  ∀ q d, q ∈ ancestors p ++ [p] → m !! q ≠ Some (File d).

(** No directory in the place of a fixture. *)
Definition no_dir_in_place (__file__ : str) (m : gmap str Node) : Prop :=
  ∀ name, name ∈ fixture_names → m !! fixture_path __file__ name ≠ Some Dir.

(** The fixtures: file name, document and confirmation line of each recipe,
    in the order of the calls. *)
Definition fixtures : list (str * Presentation * str) :=
  zip (zip fixture_names fixture_documents) fixture_messages.

(** The calls a recipe makes when it succeeds, and those of [main]. *)
Definition recipe_events (__file__ : str) (fx : str * Presentation * str)
    : list Event :=
  let '(name, prs, msg) := fx in
  [ev_save (fixture_path __file__ name) prs; ev_print msg].

Definition main_events (__file__ : str) : list Event :=
  [ev_makedirs (OUTPUT_DIR __file__);
   ev_print (py "Generating test PPTX files in " ++ OUTPUT_DIR __file__ ++ py "...");
   ev_print (str_mul (py "-") 50)]
  ++ (fixtures ≫= recipe_events __file__)
  ++ [ev_print (str_mul (py "-") 50);
      ev_print (py "Done! Test files created in tests/fixtures/")].

(** The files [main] writes. *)
Definition written (__file__ : str) : list (str * Presentation) :=
  (λ '(name, prs, _), (fixture_path __file__ name, prs)) <$> fixtures.

(** What a reader of the comprehensive fixture finds: one slide, on it at
    least ten shapes, all elements told apart by their ids, one table of
    two rows and three columns, and at least [boxes] text boxes with a
    paragraph of more than one run. *)
Definition comprehensive_summary (boxes : nat) : Prop :=
  ∃ sl t,
    slides (document comprehensive) = [sl] ∧
    (10 ≤ length (auto_shapes sl))%nat ∧
    NoDup (element_id <$> sl_shapes sl) ∧
    slide_tables sl = [t] ∧ table_shape t = (2%nat, 3%nat) ∧
    (boxes ≤ length (filter has_multi_run_paragraph (text_boxes sl)))%nat.

#[global] Instance rgb_eq_dec : EqDecision rgb.
Proof. solve_decision. Defined.
#[global] Instance theme_eq_dec : EqDecision MSO_THEME_COLOR.
Proof. solve_decision. Defined.
#[global] Instance color_eq_dec : EqDecision Color.
Proof. solve_decision. Defined.

(** Closing a decidable goal by evaluation. *)
Ltac by_evaluation := apply (bool_decide_unpack _); vm_compute; exact I.

(** A property of every element of an explicit list, element by element. *)
Ltac each tac :=
  repeat (apply Forall_cons; split; [vm_compute; tac|]); apply Forall_nil_2.

(** A place for the script and a disk with nothing on it, to run it on. *)
Definition sample_file : str := py "/repo/scripts/generate-test-pptx.py".
Definition empty_disk : World := mkWorld ∅ [].

(** The calls around the save of the fixture that follows [n] earlier
    calls of the run. *)
Ltac around n :=
  match goal with
  | |- ∃ before line after, ?calls = _ =>
    exists (take n calls); eexists; exists (drop (n + 3) calls); reflexivity
  end.

(** [r1(); r2(); ...; rest]: calls one after the other, as [main] makes
    them. *)
Definition in_turn (__file__ : str) (rs : list (str → IO unit)) (rest : IO unit)
    : IO unit :=
  foldr (λ r acc, r __file__;; acc) rest rs.

(** The files of a list of fixtures. *)
Definition files_of (__file__ : str) (fxs : list (str * Presentation * str))
    : list (str * Presentation) :=
  (λ '(name, prs, _), (fixture_path __file__ name, prs)) <$> fxs.

(** The lines printed among the calls. *)
Definition prints (es : list Event) : list str :=
  omap (λ e, match e with ev_print line => Some line | _ => None end) es.

(** A disk where a directory takes the place of the gradients fixture. *)
Definition blocked_disk : World :=
  mkWorld {[ fixture_path sample_file (py "gradients.pptx") := Dir ]} [].

(** A disk where a file has the name of the output directory. *)
Definition file_for_dir : World :=
  mkWorld {[ OUTPUT_DIR sample_file := File Presentation_ ]} [].

(** A box that lies on a slide of the presentation and is not empty. *)
Definition box_on_slide (prs : Presentation) (b : Box) : bool :=
  (0 <=? b_left b) && (0 <=? b_top b) && (0 <? b_width b) && (0 <? b_height b)
  && (b_left b + b_width b <=? slide_width prs)
  && (b_top b + b_height b <=? slide_height prs).


(** A fill with its colors in place: a solid fill with an RGB color, or a
    linear gradient of exactly two stops with RGB colors. *)
Definition is_rgb (c : Color) : bool :=
  match c with color_rgb _ => true | _ => false end.

Definition fill_colored (f : Fill) : bool :=
  match f with
  | fill_solid c => is_rgb c
  | fill_gradient stops (Some _) =>
    bool_decide (length stops = 2%nat) && forallb (λ s, is_rgb (gs_color s)) stops
  | _ => false
  end.

(** The fills of an element as the recipes leave them: a text box has
    explicitly no fill, an auto shape a fill with its colors in place, and a
    table cell such a solid fill or none of its own. *)
Definition fills_as_made (e : Element) : bool :=
  match e with
  | el_shape _ text_box _ f _ => match f with fill_none => true | _ => false end
  | el_shape _ (preset _) _ f _ => fill_colored f
  | el_graphic_frame _ _ t =>
    forallb (λ row,
      forallb (λ c, match cell_fill c with
                    | fill_inherited => true
                    | fill_solid col => is_rgb col
                    | _ => false
                    end) (row_cells row))
      (tbl_rows t)
  | el_placeholder _ _ => true
  end.

(** The text frames on a slide. *)
Definition element_text_frames (e : Element) : list TextFrame :=
  match e with
  | el_shape _ _ _ _ tf => [tf]
  | el_graphic_frame _ _ t => tbl_rows t ≫= λ row, cell_text_frame <$> row_cells row
  | el_placeholder _ _ => []
  end.

(** In every slide of every fixture. *)
Definition in_every_slide (P : Presentation → Slide → Prop) : Prop :=
  Forall (λ prs, Forall (P prs) (slides prs)) fixture_documents.

(** The text frame a new auto shape has before any text is set. *)
Definition empty_centered : TextFrame :=
  mkTextFrame [set_p_alignment (Some CENTER) new_paragraph] None.

(** A paragraph holding [t] as one plain run, with its own alignment and
    default font. *)
Definition one_run (t : str) (a : option PP_ALIGN) (f : Font) : Paragraph :=
  mkParagraph [inline_run (mkRun t no_font)] a 0 bu_inherited f.

(** * Properties *)

(** ** Paths *)

Lemma ends_with_sep_app (p b : str) :
  b ≠ [] → ends_with_sep (p ++ b) = ends_with_sep b.
Proof.
  intros Hb. unfold ends_with_sep. rewrite last_app.
  destruct (last b) eqn:E; [done|].
  apply last_None in E. done.
Qed.

Lemma join2_relative (path b : str) :
  starts_with_sep b = false → path ≠ [] → ends_with_sep path = false →
  join2 path b = path ++ SEP :: b.
Proof.
  intros Hb Hp He. unfold join2. rewrite Hb, He.
  rewrite bool_decide_eq_false_2 by done. done.
Qed.

(** The output directory is what precedes it followed by [/tests/fixtures]. *)
Lemma OUTPUT_DIR_tail (__file__ : str) :
  ∃ up, OUTPUT_DIR __file__ = up ++ SEP :: py "tests" ++ SEP :: py "fixtures".
Proof.
  unfold OUTPUT_DIR, os_path_join. simpl foldl.
  set (d := os_path_dirname __file__).
  assert (Hup : ∃ d', join2 d (py "..") = d' ++ py "..").
  { unfold join2. change (starts_with_sep (py "..")) with false. cbv iota.
    destruct (_ || _); [by exists d|].
    exists (d ++ [SEP]). by rewrite <- app_assoc. }
  destruct Hup as [d' ->].
  exists (d' ++ py "..").
  assert (Hne : ∀ a b : str, b ≠ [] → a ++ b ≠ []).
  { intros a b Hb E. by apply app_eq_nil in E as [_ ?]. }
  rewrite (join2_relative (d' ++ py "..") (py "tests"));
    [|done|by apply Hne|by rewrite ends_with_sep_app].
  rewrite join2_relative; [|done|by apply Hne|by rewrite ends_with_sep_app].
  by rewrite <- !app_assoc.
Qed.

Lemma OUTPUT_DIR_nonempty (__file__ : str) : OUTPUT_DIR __file__ ≠ [].
Proof.
  destruct (OUTPUT_DIR_tail __file__) as [up ->].
  intros E. by apply app_eq_nil in E as [_ ?].
Qed.

Lemma OUTPUT_DIR_last (__file__ : str) :
  last (OUTPUT_DIR __file__) = Some 115%N.
Proof.
  destruct (OUTPUT_DIR_tail __file__) as [up ->].
  by rewrite last_app.
Qed.

Lemma fixture_path_eq (__file__ name : str) :
  starts_with_sep name = false →
  fixture_path __file__ name = OUTPUT_DIR __file__ ++ SEP :: name.
Proof.
  intros Hn. unfold fixture_path, os_path_join. simpl.
  apply join2_relative; [done|apply OUTPUT_DIR_nonempty|].
  unfold ends_with_sep. by rewrite OUTPUT_DIR_last.
Qed.

Lemma split_last_sep_no_sep (name : str) :
  no_sep name = true → split_last_sep name = ([], name).
Proof.
  induction name as [|c q IH]; [done|].
  simpl. intros [Hc Hq]%andb_true_iff.
  rewrite IH by done. apply negb_true_iff in Hc. by rewrite Hc.
Qed.

Lemma split_last_sep_app (a name : str) :
  no_sep name = true → split_last_sep (a ++ SEP :: name) = (a ++ [SEP], name).
Proof.
  intros Hn. induction a as [|c a IH].
  - simpl. by rewrite split_last_sep_no_sep.
  - simpl. rewrite IH. by destruct a.
Qed.

(** The directory of a file placed in [d] is [d]. *)
Lemma dirname_in_dir (d name : str) (c : N) :
  last d = Some c → is_sep c = false → no_sep name = true →
  os_path_dirname (d ++ SEP :: name) = d.
Proof.
  intros Hl Hc Hn. apply last_Some in Hl as [d' ->].
  unfold os_path_dirname. rewrite split_last_sep_app by done. simpl fst.
  rewrite bool_decide_eq_true_2
    by (intros E; by apply app_eq_nil in E as [_ ?]).
  rewrite !forallb_app. simpl forallb. rewrite Hc, andb_false_r. simpl.
  unfold rstrip_sep. rewrite !reverse_snoc. simpl. rewrite Hc.
  by rewrite reverse_cons, reverse_involutive.
Qed.

Lemma dir_prefixes_shorter (seen rest x : str) :
  x ∈ dir_prefixes seen rest → (length x < length seen + length rest)%nat.
Proof.
  revert seen. induction rest as [|c rest IH]; intros seen; simpl.
  - by intros ?%elem_of_nil.
  - intros [Hx|Hx]%elem_of_app.
    + destruct (_ && _); [|by apply elem_of_nil in Hx].
      apply list_elem_of_singleton in Hx as ->. lia.
    + apply IH in Hx. rewrite length_app in Hx. simpl in Hx. lia.
Qed.

Lemma ancestors_shorter (p x : str) :
  x ∈ ancestors p → (length x < length p)%nat.
Proof. intros H%dir_prefixes_shorter. done. Qed.

(** ** Running the monad *)

Lemma bind_ok {S A B} (m : M S A) (f : A → M S B) (s s' : S) (a : A) :
  m s = (OK a, s') → (m ≫= f) s = f a s'.
Proof. intros H. unfold mbind, M_bind. by rewrite H. Qed.

Lemma bind_raise {S A B} (m : M S A) (f : A → M S B) (s s' : S) (e : Exn) :
  m s = (Raise e, s') → (m ≫= f) s = (Raise e, s').
Proof. intros H. unfold mbind, M_bind. by rewrite H. Qed.

Lemma construct_ok (m : Doc unit) (w : World) :
  completes m → construct m w = (OK (document m), w).
Proof.
  unfold completes, document, construct.
  destruct (m Presentation_) as [[[]|e] prs]; by intros [=].
Qed.

(** A recipe whose statements run to the end produces the document they
    build. *)
Lemma recipe_produces (m : Doc unit) (name msg : str) :
  completes m →
  produces (λ __file__,
              prs ← construct m;
              save prs (os_path_join (OUTPUT_DIR __file__) [name]);; print msg)
           name msg (document m).
Proof.
  intros Hm __file__ w. by rewrite (bind_ok _ _ _ _ _ (construct_ok m w Hm)).
Qed.

Lemma basic_shapes_completes : completes basic_shapes.
Proof. vm_compute. reflexivity. Qed.
Lemma text_formatting_completes : completes text_formatting.
Proof. vm_compute. reflexivity. Qed.
Lemma gradients_completes : completes gradients.
Proof. vm_compute. reflexivity. Qed.
Lemma tables_completes : completes tables.
Proof. vm_compute. reflexivity. Qed.
Lemma multi_slide_completes : completes multi_slide.
Proof. vm_compute. reflexivity. Qed.
Lemma comprehensive_completes : completes comprehensive.
Proof. vm_compute. reflexivity. Qed.
Lemma images_completes : completes images.
Proof. vm_compute. reflexivity. Qed.

Lemma basic_shapes_produced :
  produces create_basic_shapes_pptx (py "basic-shapes.pptx")
           (py "Created basic-shapes.pptx") (document basic_shapes).
Proof. exact (recipe_produces basic_shapes _ _ basic_shapes_completes). Qed.
Lemma text_formatting_produced :
  produces create_text_formatting_pptx (py "text-formatting.pptx")
           (py "Created text-formatting.pptx") (document text_formatting).
Proof. exact (recipe_produces text_formatting _ _ text_formatting_completes). Qed.
Lemma gradients_produced :
  produces create_gradients_pptx (py "gradients.pptx")
           (py "Created gradients.pptx") (document gradients).
Proof. exact (recipe_produces gradients _ _ gradients_completes). Qed.
Lemma tables_produced :
  produces create_tables_pptx (py "tables.pptx")
           (py "Created tables.pptx") (document tables).
Proof. exact (recipe_produces tables _ _ tables_completes). Qed.
Lemma multi_slide_produced :
  produces create_multi_slide_pptx (py "multi-slide.pptx")
           (py "Created multi-slide.pptx") (document multi_slide).
Proof. exact (recipe_produces multi_slide _ _ multi_slide_completes). Qed.
Lemma comprehensive_produced :
  produces create_comprehensive_pptx (py "comprehensive.pptx")
           (py "Created comprehensive.pptx") (document comprehensive).
Proof. exact (recipe_produces comprehensive _ _ comprehensive_completes). Qed.
Lemma images_produced :
  produces create_images_pptx (py "images.pptx")
           (py "Created images.pptx (placeholder)") (document images).
Proof. exact (recipe_produces images _ _ images_completes). Qed.

(** ** The fixtures *)

(** C6. The basic-shapes recipe saves a document of one slide that holds
    exactly nine shapes, of the kinds rectangle, rounded rectangle, ellipse,
    triangle, diamond, star, right arrow, heart and cloud, placed in three
    rows of three (tops at 0.5, 2 and 4 inches); each has a solid fill, the
    nine fill colors differ from one another, and exactly three shapes, the
    first three, carry a text label. *)
Theorem basic_shapes_fixture :
  produces create_basic_shapes_pptx (py "basic-shapes.pptx")
           (py "Created basic-shapes.pptx") (document basic_shapes) ∧
  ∃ sl,
    slides (document basic_shapes) = [sl] ∧
    length (sl_shapes sl) = 9%nat ∧
    element_geometry <$> sl_shapes sl =
      (λ t, Some (preset t)) <$>
        [RECTANGLE; ROUNDED_RECTANGLE; OVAL; ISOSCELES_TRIANGLE; DIAMOND;
         STAR_5_POINT; RIGHT_ARROW; HEART; CLOUD] ∧
    (λ e, b_top <$> element_box e) <$> sl_shapes sl =
      Some <$> (replicate 3 (Inches 0.5) ++ replicate 3 (Inches 2)
                ++ replicate 3 (Inches 4)) ∧
    (let colors :=
       [RGBColor 0x41 0x69 0xE1; RGBColor 0x32 0xCD 0x32; RGBColor 0xFF 0x69 0xB4;
        RGBColor 0xFF 0xA5 0x00; RGBColor 0x94 0x00 0xD3; RGBColor 0xFF 0xD7 0x00;
        RGBColor 0x00 0x80 0x80; RGBColor 0xFF 0x00 0x00; RGBColor 0x87 0xCE 0xEB] in
     element_fill <$> sl_shapes sl = (λ c, Some (fill_solid (color_rgb c))) <$> colors
     ∧ NoDup colors) ∧
    label <$> sl_shapes sl =
      [py "Rectangle"; py "Rounded Rect"; py "Ellipse"; []; []; []; []; []; []] ∧
    length (filter has_label (sl_shapes sl)) = 3%nat.
Proof.
  split; [apply basic_shapes_produced|].
  eexists. split; [vm_compute; reflexivity|].
  repeat split; try (vm_compute; reflexivity).
  by_evaluation.
Qed.

(** C4. The gradients recipe saves a document of one slide that holds
    exactly four shapes, three rectangles and a rounded rectangle; each has
    a gradient fill, not a solid one, with exactly two stops; the gradient
    angles are 0, 90, 45 and 135 degrees, all different; the pairs of stop
    colors differ from shape to shape; and every shape carries a label. *)
Theorem gradients_fixture :
  produces create_gradients_pptx (py "gradients.pptx")
           (py "Created gradients.pptx") (document gradients) ∧
  ∃ sl,
    slides (document gradients) = [sl] ∧
    element_geometry <$> sl_shapes sl =
      (λ t, Some (preset t)) <$> [RECTANGLE; RECTANGLE; RECTANGLE; ROUNDED_RECTANGLE] ∧
    Forall (λ e, match element_fill e with
                 | Some f => is_gradient f ∧ ¬ is_solid f
                             ∧ length (stop_colors f) = 2%nat
                 | None => False
                 end) (sl_shapes sl) ∧
    (let angles := [0; 90; 45; 135] in
     (λ e, element_fill e ≫= gradient_angle) <$> sl_shapes sl = Some <$> angles
     ∧ NoDup angles) ∧
    (let pairs :=
       [[RGBColor 0xFF 0x00 0x00; RGBColor 0x00 0x00 0xFF];
        [RGBColor 0x00 0xFF 0x00; RGBColor 0xFF 0xFF 0x00];
        [RGBColor 0x80 0x00 0x80; RGBColor 0xFF 0xA5 0x00];
        [RGBColor 0x00 0x80 0x80; RGBColor 0xFF 0x69 0xB4]] in
     (λ e, stop_colors <$> element_fill e) <$> sl_shapes sl =
       (λ pair : list rgb, Some (color_rgb <$> pair)) <$> pairs
     ∧ NoDup pairs) ∧
    label <$> sl_shapes sl =
      [py "Linear H"; py "Linear V"; py "Diagonal"; py "Rounded Gradient"] ∧
    Forall (λ e, has_label e) (sl_shapes sl).
Proof.
  split; [apply gradients_produced|].
  eexists. split; [vm_compute; reflexivity|].
  split; [vm_compute; reflexivity|].
  split.
  { vm_compute. each ltac:(by intuition). }
  split; [split; [vm_compute; reflexivity|by_evaluation]|].
  split; [split; [vm_compute; reflexivity|by_evaluation]|].
  split; [vm_compute; reflexivity|].
  vm_compute. each ltac:(exact I).
Qed.

(** C5. The tables recipe saves a document of one slide that holds a title
    text box and exactly one table, of 4 rows and 3 columns.  Every cell of
    row 0 has a solid fill and text that is bold and white; the cells of
    rows 1 to 3 hold plain text, with no fill and no character property of
    their own; and every column has the width the recipe sets, 2.5 inches,
    not the share of the table width it was created with. *)
Theorem tables_fixture :
  produces create_tables_pptx (py "tables.pptx")
           (py "Created tables.pptx") (document tables) ∧
  ∃ sl title t header,
    slides (document tables) = [sl] ∧
    length (sl_shapes sl) = 2%nat ∧
    text_boxes sl = [title] ∧ text_frame_text title = py "Table Test" ∧
    slide_tables sl = [t] ∧
    table_shape t = (4%nat, 3%nat) ∧
    Forall (λ row, length (row_cells row) = 3%nat) (tbl_rows t) ∧
    row_cells <$> tbl_rows t !! 0%nat = Some header ∧
    Forall (λ c, is_solid (cell_fill c) ∧ bold_white (cell_text_frame c)) header ∧
    text_frame_text ∘ cell_text_frame <$> header =
      [py "Name"; py "Department"; py "Status"] ∧
    row_cells <$> drop 1 (tbl_rows t) =
      fmap (λ value, mkCell fill_inherited (plain_text value)) <$>
        [[py "Alice Smith"; py "Engineering"; py "Active"];
         [py "Bob Johnson"; py "Marketing"; py "Active"];
         [py "Carol Williams"; py "Sales"; py "On Leave"]] ∧
    tbl_columns t = replicate 3 (Inches 2.5) ∧
    Forall (λ width, width ≠ Inches 8 / 3) (tbl_columns t).
Proof.
  split; [apply tables_produced|].
  do 4 eexists. split; [vm_compute; reflexivity|].
  split; [vm_compute; reflexivity|].
  split; [vm_compute; reflexivity|].
  split; [vm_compute; reflexivity|].
  split; [vm_compute; reflexivity|].
  split; [vm_compute; reflexivity|].
  split.
  { vm_compute. each ltac:(reflexivity). }
  split; [vm_compute; reflexivity|].
  split.
  { vm_compute.
    each ltac:(split; [exact I|split; [by intros [=]|]];
               each ltac:(each ltac:(by split))). }
  split; [vm_compute; reflexivity|].
  split; [vm_compute; reflexivity|].
  split; [vm_compute; reflexivity|].
  vm_compute. each ltac:(by intros [=]).
Qed.

(** C7. In the document of the text-formatting recipe the numbered list,
    the sixth text box, is exactly three paragraphs; their text begins with
    the literal prefixes "1. ", "2. " and "3. "; each is one run in a
    paragraph whose only property is the default font size, so no
    numbering, nor any bullet, is set on any of them. *)
Theorem numbered_list_literal :
  produces create_text_formatting_pptx (py "text-formatting.pptx")
           (py "Created text-formatting.pptx") (document text_formatting) ∧
  ∃ sl id fl tf,
    slides (document text_formatting) = [sl] ∧
    sl_shapes sl !! 5%nat =
      Some (el_shape id text_box
              (mkBox (Inches 5) (Inches 3.8) (Inches 4) (Inches 2)) fl tf) ∧
    length (tf_paragraphs tf) = 3%nat ∧
    tf_paragraphs tf =
      list_item (Pt 16) <$>
        [py "1. First numbered item"; py "2. Second numbered item";
         py "3. Third numbered item"] ∧
    Forall2 (λ p pre, pre `prefix_of` paragraph_text p)
            (tf_paragraphs tf) [py "1. "; py "2. "; py "3. "] ∧
    Forall (λ p, p_bullet p = bu_inherited) (tf_paragraphs tf).
Proof.
  split; [apply text_formatting_produced|].
  do 4 eexists. split; [vm_compute; reflexivity|].
  split; [vm_compute; reflexivity|].
  split; [vm_compute; reflexivity|].
  split; [vm_compute; reflexivity|].
  split; [by_evaluation|].
  vm_compute. each ltac:(reflexivity).
Qed.

(** C9. In the document of the text-formatting recipe the bulleted list,
    the fifth text box, is three paragraphs whose text is exactly "First
    bullet item", "Second bullet item" and "Third bullet item": no glyph and
    no prefix, one run each, and on the paragraph only the level (0) and
    the default font size.  The comprehensive recipe differs: the text of
    each paragraph of its bullet box is the literal of the source followed
    by the item. *)
Theorem bullet_list_plain :
  produces create_text_formatting_pptx (py "text-formatting.pptx")
           (py "Created text-formatting.pptx") (document text_formatting) ∧
  (∃ sl id fl tf,
    slides (document text_formatting) = [sl] ∧
    sl_shapes sl !! 4%nat =
      Some (el_shape id text_box
              (mkBox (Inches 0.5) (Inches 3.8) (Inches 4) (Inches 2)) fl tf) ∧
    paragraph_text <$> tf_paragraphs tf =
      [py "First bullet item"; py "Second bullet item"; py "Third bullet item"] ∧
    tf_paragraphs tf =
      list_item (Pt 16) <$>
        [py "First bullet item"; py "Second bullet item"; py "Third bullet item"] ∧
    Forall (λ p, p_level p = 0 ∧ p_bullet p = bu_inherited
                 ∧ p_alignment p = None
                 ∧ p_font p = set_f_size (Some (Pt 16)) no_font)
           (tf_paragraphs tf)) ∧
  (∃ sl tf,
    slides (document comprehensive) = [sl] ∧
    last (text_boxes sl) = Some tf ∧
    paragraph_text <$> tf_paragraphs tf =
      (λ bullet, py "â€¢ " ++ bullet) <$>
        [py "First item"; py "Second item"; py "Third item"] ∧
    py "â€¢ " ≠ []).
Proof.
  split; [apply text_formatting_produced|]. split.
  - do 4 eexists. split; [vm_compute; reflexivity|].
    split; [vm_compute; reflexivity|].
    split; [vm_compute; reflexivity|].
    split; [vm_compute; reflexivity|].
    vm_compute. each ltac:(done).
  - do 2 eexists. split; [vm_compute; reflexivity|].
    split; [vm_compute; reflexivity|].
    split; [vm_compute; reflexivity|].
    vm_compute. by intros [=].
Qed.

(** C10. In the document of the comprehensive recipe each of the three
    paragraphs of the bullet box has as text the four characters U+00E2,
    U+20AC, U+00A2 and a space, followed by the item.  The three characters
    in front of the space are the mojibake of the bullet U+2022 (its UTF-8
    bytes read as Windows-1252), and no paragraph starts with the single
    bullet character and a space. *)
Theorem comprehensive_bullet_prefix :
  produces create_comprehensive_pptx (py "comprehensive.pptx")
           (py "Created comprehensive.pptx") (document comprehensive) ∧
  ∃ sl tf,
    slides (document comprehensive) = [sl] ∧
    last (text_boxes sl) = Some tf ∧
    length (tf_paragraphs tf) = 3%nat ∧
    paragraph_text <$> tf_paragraphs tf =
      (λ bullet, [0xE2; 0x20AC; 0xA2; 0x20]%N ++ bullet) <$>
        [py "First item"; py "Second item"; py "Third item"] ∧
    mojibake_of [0xE2; 0x20AC; 0xA2]%N [BULLET] ∧
    Forall (λ p, ¬ [BULLET; 0x20%N] `prefix_of` paragraph_text p)
           (tf_paragraphs tf).
Proof.
  split; [apply comprehensive_produced|].
  do 2 eexists. split; [vm_compute; reflexivity|].
  split; [vm_compute; reflexivity|].
  split; [vm_compute; reflexivity|].
  split; [vm_compute; reflexivity|].
  split.
  { exists [0xE2; 0x80; 0xA2]%N. split; vm_compute; reflexivity. }
  vm_compute tf_paragraphs.
  repeat (apply Forall_cons; split; [by_evaluation|]). apply Forall_nil_2.
Qed.

(** C2, as the fixture is specified: two text boxes with a paragraph of
    more than one run.  The document has one. *)
Lemma comprehensive_two_multi_run_boxes_fails : ¬ comprehensive_summary 2.
Proof.
  intros (sl & t & Hsl & _ & _ & _ & _ & Hboxes).
  vm_compute in Hsl. injection Hsl as <-.
  vm_compute in Hboxes. lia.
Qed.

(** C2, amended.  The document of the comprehensive recipe has exactly one
    slide; the slide holds eleven auto shapes (at least ten), every element
    with an id of its own, exactly one table, of 2 rows and 3 columns, and
    exactly one text box that has a paragraph of more than one run: the box
    of formatting samples, whose paragraph has four runs.  The title box and
    the bullet box have one run per paragraph. *)
Theorem comprehensive_fixture :
  produces create_comprehensive_pptx (py "comprehensive.pptx")
           (py "Created comprehensive.pptx") (document comprehensive) ∧
  comprehensive_summary 1 ∧
  ∃ sl,
    slides (document comprehensive) = [sl] ∧
    length (auto_shapes sl) = 11%nat ∧
    length (sl_shapes sl) = 15%nat ∧
    length (filter has_multi_run_paragraph (text_boxes sl)) = 1%nat ∧
    (λ tf, (λ p, length (runs p)) <$> tf_paragraphs tf) <$> text_boxes sl =
      [[1]; [4]; [1; 1; 1]]%nat.
Proof.
  split; [apply comprehensive_produced|]. split.
  - do 2 eexists. split; [vm_compute; reflexivity|].
    split; [vm_compute; lia|].
    split; [by_evaluation|].
    split; [vm_compute; reflexivity|].
    split; [vm_compute; reflexivity|].
    vm_compute. lia.
  - eexists. split; [vm_compute; reflexivity|].
    repeat split; vm_compute; reflexivity.
Qed.

(** ** The file system calls *)

Lemma print_run (line : str) (w : World) :
  print line w = (OK tt, mkWorld (fs w) (events w ++ [ev_print line])).
Proof. reflexivity. Qed.

Lemma mkdir_on_way_ok (q : str) (w : World) :
  (∀ d, fs w !! q ≠ Some (File d)) →
  mkdir_on_way q w = (OK tt, mkWorld (<[q := Dir]> (fs w)) (events w)).
Proof.
  intros Hq. unfold mkdir_on_way, mbind, M_bind, get, set_node, modify.
  destruct (fs w !! q) as [[|d]|] eqn:E.
  - rewrite insert_id by done. by destruct w.
  - by destruct (Hq d).
  - reflexivity.
Qed.

Lemma mkdirs_on_way_ok (l : list str) (w : World) :
  (∀ q d, q ∈ l → fs w !! q ≠ Some (File d)) →
  for_each l mkdir_on_way w =
    (OK tt, mkWorld (foldl (λ m d, <[d := Dir]> m) (fs w) l) (events w)).
Proof.
  revert w. induction l as [|q l IH]; intros w Hl.
  - by destruct w.
  - simpl for_each.
    rewrite (bind_ok _ _ _ _ _ (mkdir_on_way_ok q w
               (λ d, Hl q d (list_elem_of_here _ _)))).
    rewrite IH; [done|].
    intros q' d Hq'. simpl. rewrite lookup_insert.
    case_decide; [done|]. apply Hl. by apply list_elem_of_further.
Qed.

Lemma makedirs_eq (name : str) (exist_ok : bool) (w : World) :
  makedirs name exist_ok w =
    let w1 := mkWorld (fs w) (events w ++ [ev_makedirs name]) in
    match fs w !! name with
    | Some Dir => if exist_ok then (OK tt, w1) else (Raise FileExistsError, w1)
    | Some (File _) => (Raise FileExistsError, w1)
    | None => (for_each (ancestors name) mkdir_on_way;; set_node name Dir) w1
    end.
Proof.
  unfold makedirs, mbind at 1 2, M_bind at 1 2, record, modify, get. simpl.
  destruct (fs w !! name) as [[|d]|]; [by destruct exist_ok|done|done].
Qed.

Lemma makedirs_ok (name : str) (w : World) :
  no_file_on_the_way name (fs w) →
  makedirs name true w =
    (OK tt, mkWorld (after_makedirs name (fs w)) (events w ++ [ev_makedirs name])).
Proof.
  intros Hw. rewrite makedirs_eq. unfold after_makedirs. cbv zeta.
  destruct (fs w !! name) as [[|d]|] eqn:E.
  - reflexivity.
  - destruct (Hw name d); [|done]. apply elem_of_app. right. apply list_elem_of_here.
  - erewrite bind_ok.
    2:{ apply mkdirs_on_way_ok. intros q d Hq. simpl. apply Hw.
        apply elem_of_app. by left. }
    reflexivity.
Qed.

Lemma after_makedirs_dir (name : str) (m : gmap str Node) :
  after_makedirs name m !! name = Some Dir.
Proof.
  unfold after_makedirs. destruct (m !! name) as [[|d]|] eqn:E; [done| |];
    unfold with_dirs; by rewrite lookup_insert_eq.
Qed.

(** [makedirs p] touches no path longer than [p]. *)
Lemma after_makedirs_longer (name q : str) (m : gmap str Node) :
  (length name < length q)%nat → after_makedirs name m !! q = m !! q.
Proof.
  intros Hlen. unfold after_makedirs.
  assert (Hw : with_dirs name m !! q = m !! q).
  { unfold with_dirs. rewrite lookup_insert_ne by (intros ->; lia).
    assert (Hl : ∀ x, x ∈ ancestors name → x ≠ q).
    { intros x Hx%ancestors_shorter ->. lia. }
    revert m. induction (ancestors name) as [|a l IH]; intros m; [done|].
    simpl. rewrite IH.
    - rewrite lookup_insert_ne; [done|]. apply Hl, list_elem_of_here.
    - intros x Hx. by apply Hl, list_elem_of_further. }
  by destruct (m !! name) as [[|d]|].
Qed.

Lemma save_eq (prs : Presentation) (path : str) (w : World) :
  save prs path w =
    let w1 := mkWorld (fs w) (events w ++ [ev_save path prs]) in
    let w2 := mkWorld (<[path := File prs]> (fs w)) (events w ++ [ev_save path prs]) in
    match fs w !! path with
    | Some Dir => (Raise IsADirectoryError, w1)
    | _ =>
      if bool_decide (os_path_dirname path = []) then (OK tt, w2)
      else match fs w !! os_path_dirname path with
           | Some Dir => (OK tt, w2)
           | Some (File _) => (Raise NotADirectoryError, w1)
           | None => (Raise FileNotFoundError, w1)
           end
    end.
Proof.
  unfold save, mbind at 1 2, M_bind at 1 2, record, modify, get. simpl.
  destruct (fs w !! path) as [[|d]|]; [done| |];
    (case_bool_decide; [done|]);
    by destruct (fs w !! os_path_dirname path) as [[|d']|].
Qed.

Lemma save_ok (prs : Presentation) (path : str) (w : World) :
  fs w !! path ≠ Some Dir →
  fs w !! os_path_dirname path = Some Dir →
  save prs path w =
    (OK tt, mkWorld (<[path := File prs]> (fs w)) (events w ++ [ev_save path prs])).
Proof.
  intros Hp Hd. rewrite save_eq. cbv zeta. rewrite Hd.
  destruct (fs w !! path) as [[|d]|]; [done| |]; by case_bool_decide.
Qed.

(** ** The driver *)

Lemma fixture_names_simple :
  Forall (λ name, no_sep name = true ∧ starts_with_sep name = false) fixture_names.
Proof. vm_compute. each ltac:(done). Qed.

Lemma fixture_name_simple (name : str) :
  name ∈ fixture_names → no_sep name = true ∧ starts_with_sep name = false.
Proof. apply (proj1 (Forall_forall _ _) fixture_names_simple). Qed.

Lemma fixture_path_longer (__file__ name : str) :
  starts_with_sep name = false →
  (length (OUTPUT_DIR __file__) < length (fixture_path __file__ name))%nat.
Proof.
  intros Hn. rewrite fixture_path_eq by done. rewrite length_app. simpl. lia.
Qed.

Lemma fixture_dirname (__file__ name : str) :
  no_sep name = true → starts_with_sep name = false →
  os_path_dirname (fixture_path __file__ name) = OUTPUT_DIR __file__.
Proof.
  intros Hn Hs. rewrite fixture_path_eq by done.
  apply (dirname_in_dir _ _ 115%N); [apply OUTPUT_DIR_last|done|done].
Qed.

(** A recipe run where the output directory exists and no directory takes
    the place of its file: it writes the file and prints its line; the
    output directory is still there, and still no directory is in the place
    of a fixture. *)
Lemma recipe_run (recipe : str → IO unit) (name msg : str) (prs : Presentation)
    (__file__ : str) (w : World) :
  produces recipe name msg prs →
  name ∈ fixture_names →
  fs w !! OUTPUT_DIR __file__ = Some Dir →
  no_dir_in_place __file__ (fs w) →
  let w' := mkWorld (<[fixture_path __file__ name := File prs]> (fs w))
                    (events w ++ recipe_events __file__ (name, prs, msg)) in
  recipe __file__ w = (OK tt, w') ∧
  fs w' !! OUTPUT_DIR __file__ = Some Dir ∧
  no_dir_in_place __file__ (fs w').
Proof.
  intros Hprod Hname Hout Hfree w'.
  destruct (fixture_name_simple name Hname) as [Hn Hs].
  split; [|split].
  - rewrite Hprod. erewrite bind_ok.
    2:{ apply save_ok; [by apply Hfree|]. by rewrite fixture_dirname. }
    rewrite print_run. unfold w'. simpl. by rewrite <- app_assoc.
  - simpl. rewrite lookup_insert_ne; [done|].
    intros E. pose proof (fixture_path_longer __file__ name Hs) as Hlen.
    rewrite E in Hlen. lia.
  - intros name' Hname'. simpl. rewrite lookup_insert.
    case_decide; [done|]. by apply Hfree.
Qed.

(** The run of the driver where nothing is in its way. *)
Lemma main_run (__file__ : str) (w : World) :
  no_file_on_the_way (OUTPUT_DIR __file__) (fs w) →
  no_dir_in_place __file__ (fs w) →
  main __file__ w =
    (OK tt,
     mkWorld (with_files (written __file__)
                (after_makedirs (OUTPUT_DIR __file__) (fs w)))
             (events w ++ main_events __file__)).
Proof.
  intros Hway Hfree.
  set (w1 := mkWorld (after_makedirs (OUTPUT_DIR __file__) (fs w))
    (((events w ++ [ev_makedirs (OUTPUT_DIR __file__)])
      ++ [ev_print (py "Generating test PPTX files in "
                    ++ OUTPUT_DIR __file__ ++ py "...")])
     ++ [ev_print (str_mul (py "-") 50)])).
  assert (Hdir1 : fs w1 !! OUTPUT_DIR __file__ = Some Dir)
    by apply after_makedirs_dir.
  assert (Hfree1 : no_dir_in_place __file__ (fs w1)).
  { intros name Hname. simpl. rewrite after_makedirs_longer; [by apply Hfree|].
    apply fixture_path_longer. by destruct (fixture_name_simple name Hname). }
  destruct (recipe_run _ _ _ _ __file__ w1 basic_shapes_produced
              ltac:(by_evaluation) Hdir1 Hfree1) as (R1 & Hdir2 & Hfree2).
  destruct (recipe_run _ _ _ _ __file__ _ text_formatting_produced
              ltac:(by_evaluation) Hdir2 Hfree2) as (R2 & Hdir3 & Hfree3).
  destruct (recipe_run _ _ _ _ __file__ _ gradients_produced
              ltac:(by_evaluation) Hdir3 Hfree3) as (R3 & Hdir4 & Hfree4).
  destruct (recipe_run _ _ _ _ __file__ _ tables_produced
              ltac:(by_evaluation) Hdir4 Hfree4) as (R4 & Hdir5 & Hfree5).
  destruct (recipe_run _ _ _ _ __file__ _ multi_slide_produced
              ltac:(by_evaluation) Hdir5 Hfree5) as (R5 & Hdir6 & Hfree6).
  destruct (recipe_run _ _ _ _ __file__ _ comprehensive_produced
              ltac:(by_evaluation) Hdir6 Hfree6) as (R6 & Hdir7 & Hfree7).
  destruct (recipe_run _ _ _ _ __file__ _ images_produced
              ltac:(by_evaluation) Hdir7 Hfree7) as (R7 & _ & _).
  unfold main, ensure_output_dir.
  rewrite (bind_ok _ _ _ _ _ (makedirs_ok _ _ Hway)).
  rewrite (bind_ok _ _ _ _ _ (print_run _ _)).
  rewrite (bind_ok _ _ _ _ _ (print_run _ _)).
  rewrite (bind_ok _ _ _ _ _ R1), (bind_ok _ _ _ _ _ R2),
    (bind_ok _ _ _ _ _ R3), (bind_ok _ _ _ _ _ R4),
    (bind_ok _ _ _ _ _ R5), (bind_ok _ _ _ _ _ R6),
    (bind_ok _ _ _ _ _ R7).
  rewrite (bind_ok _ _ _ _ _ (print_run _ _)).
  rewrite print_run. subst w1. cbn [events fs recipe_events].
  f_equal. f_equal.
  rewrite <- !app_assoc. reflexivity.
Qed.

Lemma main_emitted (__file__ : str) (w : World) :
  no_file_on_the_way (OUTPUT_DIR __file__) (fs w) →
  no_dir_in_place __file__ (fs w) →
  emitted (main __file__) w = main_events __file__.
Proof.
  intros Hway Hfree. unfold emitted. rewrite main_run by done.
  simpl. apply drop_app_length.
Qed.

Lemma fixtures_eq :
  fixtures =
    [(py "basic-shapes.pptx", document basic_shapes, py "Created basic-shapes.pptx");
     (py "text-formatting.pptx", document text_formatting,
      py "Created text-formatting.pptx");
     (py "gradients.pptx", document gradients, py "Created gradients.pptx");
     (py "tables.pptx", document tables, py "Created tables.pptx");
     (py "multi-slide.pptx", document multi_slide, py "Created multi-slide.pptx");
     (py "comprehensive.pptx", document comprehensive,
      py "Created comprehensive.pptx");
     (py "images.pptx", document images, py "Created images.pptx (placeholder)")].
Proof. reflexivity. Qed.

Lemma recipes_produce :
  Forall2 (λ recipe '(name, prs, msg), produces recipe name msg prs)
          recipes fixtures.
Proof.
  rewrite fixtures_eq. unfold recipes.
  constructor; [apply basic_shapes_produced|].
  constructor; [apply text_formatting_produced|].
  constructor; [apply gradients_produced|].
  constructor; [apply tables_produced|].
  constructor; [apply multi_slide_produced|].
  constructor; [apply comprehensive_produced|].
  constructor; [apply images_produced|].
  constructor.
Qed.

Lemma with_files_other (files : list (str * Presentation)) (q : str)
    (m : gmap str Node) :
  Forall (λ f, f.1 ≠ q) files → with_files files m !! q = m !! q.
Proof.
  unfold with_files. revert m.
  induction files as [|[p d] files IH]; intros m Hq; [done|].
  apply Forall_cons in Hq as [Hp Hq]. simpl.
  rewrite IH by done. by rewrite lookup_insert_ne.
Qed.

Lemma written_paths (__file__ : str) :
  (written __file__).*1 =
    (λ stem, OUTPUT_DIR __file__ ++ SEP :: stem ++ py ".pptx") <$> fixture_stems.
Proof.
  change ((written __file__).*1) with (fixture_path __file__ <$> fixture_names).
  unfold fixture_names. rewrite <- list_fmap_compose.
  apply list_fmap_ext. intros i stem Hstem. simpl.
  apply fixture_path_eq.
  assert (Hin : stem ++ py ".pptx" ∈ fixture_names).
  { unfold fixture_names. apply list_elem_of_fmap. exists stem.
    split; [done|]. by eapply list_elem_of_lookup_2. }
  by destruct (fixture_name_simple _ Hin).
Qed.

(** C1. Run where no file lies where the output directory or a directory
    above it has to be, and no directory where a fixture has to be written,
    the driver succeeds.  The first call it makes creates the output
    directory, with those above it, or leaves it as it is when it exists;
    afterwards the output directory exists.  Then each of the seven recipes
    runs exactly once, in the order basic-shapes, text-formatting,
    gradients, tables, multi-slide, comprehensive, images: the documents
    saved during the run are the seven documents of the recipes, each once
    and in that order, each in the output directory under the name of its
    recipe with the extension of the format.  The file system at the end is
    the one at the start with the directory made and these seven files
    written. *)
Theorem main_writes_fixtures (__file__ : str) (w : World) :
  no_file_on_the_way (OUTPUT_DIR __file__) (fs w) →
  no_dir_in_place __file__ (fs w) →
  ∃ w',
    main __file__ w = (OK tt, w') ∧
    head (emitted (main __file__) w) = Some (ev_makedirs (OUTPUT_DIR __file__)) ∧
    fs w' !! OUTPUT_DIR __file__ = Some Dir ∧
    Forall2 (λ recipe '(name, prs, msg), produces recipe name msg prs)
            recipes fixtures ∧
    saves (emitted (main __file__) w) = written __file__ ∧
    length (written __file__) = 7%nat ∧
    (written __file__).*1 =
      (λ stem, OUTPUT_DIR __file__ ++ SEP :: stem ++ py ".pptx") <$> fixture_stems ∧
    NoDup (written __file__).*1 ∧
    (written __file__).*2 = fixture_documents ∧
    fs w' = with_files (written __file__)
                       (after_makedirs (OUTPUT_DIR __file__) (fs w)).
Proof.
  intros Hway Hfree. eexists. split; [by apply main_run|].
  rewrite main_emitted by done.
  split; [reflexivity|]. split.
  { cbn [fs]. rewrite with_files_other; [apply after_makedirs_dir|].
    apply (Forall_fmap fst (λ p, p ≠ OUTPUT_DIR __file__)).
    rewrite written_paths. apply Forall_fmap, Forall_forall.
    intros stem _ E. apply (f_equal length) in E.
    rewrite length_app in E. simpl in E. lia. }
  split; [apply recipes_produce|].
  split; [reflexivity|]. split; [reflexivity|].
  split; [apply written_paths|]. split.
  { rewrite written_paths. apply NoDup_fmap_2; [|by_evaluation].
    intros s1 s2 [=E]%app_inv_head. by apply app_inv_tail in E. }
  split; reflexivity.
Qed.


(** The driver on an empty disk. *)
Lemma main_writes_fixtures_on_empty_disk :
  no_file_on_the_way (OUTPUT_DIR sample_file) (fs empty_disk) ∧
  no_dir_in_place sample_file (fs empty_disk) ∧
  ∃ w', main sample_file empty_disk = (OK tt, w') ∧
        fs w' !! OUTPUT_DIR sample_file = Some Dir ∧
        length (saves (emitted (main sample_file) empty_disk)) = 7%nat.
Proof.
  assert (H1 : no_file_on_the_way (OUTPUT_DIR sample_file) (fs empty_disk)).
  { intros q d _. simpl. by rewrite lookup_empty. }
  assert (H2 : no_dir_in_place sample_file (fs empty_disk)).
  { intros name _. simpl. by rewrite lookup_empty. }
  split; [exact H1|]. split; [exact H2|].
  destruct (main_writes_fixtures sample_file empty_disk H1 H2)
    as (w' & Hrun & _ & Hdir & _ & Hsaves & Hlen & _).
  exists w'. split; [exact Hrun|]. split; [exact Hdir|].
  rewrite Hsaves. exact Hlen.
Defined.


(** C3. In a run of the driver where nothing is in its way, every recipe is
    surrounded by progress lines: the call that saves its document comes
    right after a printed line and right before another.  The line in front
    is the rule of dashes under the banner for the first recipe, and the
    confirmation of the previous recipe for the others; the line behind is
    the recipe's own confirmation, which names the file just saved. *)
Theorem progress_lines_around_recipes (__file__ : str) (w : World) :
  no_file_on_the_way (OUTPUT_DIR __file__) (fs w) →
  no_dir_in_place __file__ (fs w) →
  Forall (λ '(name, prs, msg),
            ∃ before line after,
              emitted (main __file__) w =
                before
                ++ [ev_print line; ev_save (fixture_path __file__ name) prs;
                    ev_print msg]
                ++ after)
         fixtures
  ∧ Forall2 (λ recipe '(name, prs, msg), produces recipe name msg prs)
            recipes fixtures.
Proof.
  intros Hway Hfree. split; [|apply recipes_produce].
  rewrite main_emitted by done. unfold main_events.
  rewrite fixtures_eq. cbn [mbind list_bind recipe_events app].
  repeat apply Forall_cons_2; [| | | | | | |apply Forall_nil_2].
  - around 2%nat.
  - around 4%nat.
  - around 6%nat.
  - around 8%nat.
  - around 10%nat.
  - around 12%nat.
  - around 14%nat.
Qed.

(** The lines around the recipes in a run on an empty disk. *)
Lemma progress_lines_on_empty_disk :
  no_file_on_the_way (OUTPUT_DIR sample_file) (fs empty_disk) ∧
  no_dir_in_place sample_file (fs empty_disk) ∧
  ∃ before line after,
    emitted (main sample_file) empty_disk =
      before
      ++ [ev_print line;
          ev_save (fixture_path sample_file (py "basic-shapes.pptx"))
                  (document basic_shapes);
          ev_print (py "Created basic-shapes.pptx")]
      ++ after.
Proof.
  assert (H1 : no_file_on_the_way (OUTPUT_DIR sample_file) (fs empty_disk)).
  { intros q d _. simpl. by rewrite lookup_empty. }
  assert (H2 : no_dir_in_place sample_file (fs empty_disk)).
  { intros name _. simpl. by rewrite lookup_empty. }
  split; [exact H1|]. split; [exact H2|].
  destruct (progress_lines_around_recipes sample_file empty_disk H1 H2)
    as [Hall _].
  rewrite fixtures_eq in Hall. apply Forall_cons in Hall as [Hfirst _].
  exact Hfirst.
Defined.

(** ** When the driver is stopped *)

Lemma main_in_turn (__file__ : str) (w : World) :
  main __file__ w =
    (ensure_output_dir __file__;;
     print (py "Generating test PPTX files in " ++ OUTPUT_DIR __file__ ++ py "...");;
     print (str_mul (py "-") 50);;
     in_turn __file__ recipes
       (print (str_mul (py "-") 50);;
        print (py "Done! Test files created in tests/fixtures/"))) w.
Proof. unfold main, in_turn, recipes. cbn [foldr]. reflexivity. Qed.

Lemma recipe_step (recipe : str → IO unit) (name msg : str) (prs : Presentation)
    (__file__ : str) (w : World) :
  produces recipe name msg prs →
  no_sep name = true → starts_with_sep name = false →
  fs w !! OUTPUT_DIR __file__ = Some Dir →
  fs w !! fixture_path __file__ name ≠ Some Dir →
  recipe __file__ w =
    (OK tt, mkWorld (<[fixture_path __file__ name := File prs]> (fs w))
                    (events w ++ recipe_events __file__ (name, prs, msg))).
Proof.
  intros Hprod Hn Hs Hout Hfree.
  rewrite Hprod. erewrite bind_ok.
  2:{ apply save_ok; [done|]. by rewrite fixture_dirname. }
  rewrite print_run. simpl. by rewrite <- app_assoc.
Qed.

Lemma recipe_blocked (recipe : str → IO unit) (name msg : str) (prs : Presentation)
    (__file__ : str) (w : World) :
  produces recipe name msg prs →
  fs w !! fixture_path __file__ name = Some Dir →
  recipe __file__ w =
    (Raise IsADirectoryError,
     mkWorld (fs w) (events w ++ [ev_save (fixture_path __file__ name) prs])).
Proof.
  intros Hprod Hdir. rewrite Hprod. apply bind_raise.
  rewrite save_eq. cbv zeta. by rewrite Hdir.
Qed.

Lemma files_of_cons (__file__ name msg : str) (prs : Presentation)
    (fxs : list (str * Presentation * str)) (m : gmap str Node) :
  with_files (files_of __file__ ((name, prs, msg) :: fxs)) m =
  with_files (files_of __file__ fxs) (<[fixture_path __file__ name := File prs]> m).
Proof. reflexivity. Qed.

(** Recipes called in turn where none is stopped: each writes its file, and
    what follows runs on the result. *)
Lemma in_turn_run (__file__ : str) (rs : list (str → IO unit))
    (fxs : list (str * Presentation * str)) (rest : IO unit) :
  Forall2 (λ recipe '(name, prs, msg), produces recipe name msg prs) rs fxs →
  Forall (λ '(name, _, _), no_sep name = true ∧ starts_with_sep name = false) fxs →
  ∀ w : World,
    fs w !! OUTPUT_DIR __file__ = Some Dir →
    Forall (λ '(name, _, _), fs w !! fixture_path __file__ name ≠ Some Dir) fxs →
    in_turn __file__ rs rest w =
      rest (mkWorld (with_files (files_of __file__ fxs) (fs w))
                    (events w ++ (fxs ≫= recipe_events __file__))).
Proof.
  induction 1 as [|recipe [[name prs] msg] rs fxs Hprod _ IH];
    intros Hsimple w Hout Hfree.
  - simpl. rewrite app_nil_r. by destruct w.
  - apply Forall_cons in Hsimple as [[Hn Hs] Hsimple].
    apply Forall_cons in Hfree as [Hfree1 Hfree].
    cbn [in_turn foldr].
    rewrite (bind_ok _ _ _ _ _
               (recipe_step _ _ _ _ __file__ w Hprod Hn Hs Hout Hfree1)).
    fold (in_turn __file__ rs rest). rewrite IH; [|done| |].
    + rewrite files_of_cons. cbn [fs events mbind list_bind].
      by rewrite <- app_assoc.
    + cbn [fs]. rewrite lookup_insert_ne; [done|].
      intros E. pose proof (fixture_path_longer __file__ name Hs) as Hlen.
      rewrite E in Hlen. lia.
    + cbn [fs]. eapply Forall_impl; [exact Hfree|].
      intros [[name' prs'] msg'] Hname'. rewrite lookup_insert.
      by case_decide.
Qed.

(** Recipes called in turn where a directory is in the place of one
    fixture: those before it write their files, the save of that one raises,
    and neither the recipes after it nor what follows run. *)
Lemma in_turn_blocked (__file__ : str) (rs1 rs2 : list (str → IO unit))
    (recipe : str → IO unit) (fxs : list (str * Presentation * str))
    (name msg : str) (prs : Presentation) (rest : IO unit) :
  Forall2 (λ recipe '(name, prs, msg), produces recipe name msg prs) rs1 fxs →
  produces recipe name msg prs →
  Forall (λ '(name, _, _), no_sep name = true ∧ starts_with_sep name = false) fxs →
  ∀ w : World,
    fs w !! OUTPUT_DIR __file__ = Some Dir →
    Forall (λ '(name, _, _), fs w !! fixture_path __file__ name ≠ Some Dir) fxs →
    fs w !! fixture_path __file__ name = Some Dir →
    in_turn __file__ (rs1 ++ recipe :: rs2) rest w =
      (Raise IsADirectoryError,
       mkWorld (with_files (files_of __file__ fxs) (fs w))
               (events w ++ (fxs ≫= recipe_events __file__)
                ++ [ev_save (fixture_path __file__ name) prs])).
Proof.
  intros Hall Hprod. revert Hall.
  induction 1 as [|recipe1 [[name1 prs1] msg1] rs1 fxs Hprod1 _ IH];
    intros Hsimple w Hout Hfree Hdir.
  - cbn [app in_turn foldr]. apply bind_raise.
    by rewrite (recipe_blocked _ _ _ _ __file__ w Hprod Hdir).
  - apply Forall_cons in Hsimple as [[Hn Hs] Hsimple].
    apply Forall_cons in Hfree as [Hfree1 Hfree].
    cbn [app in_turn foldr].
    rewrite (bind_ok _ _ _ _ _
               (recipe_step _ _ _ _ __file__ w Hprod1 Hn Hs Hout Hfree1)).
    fold (in_turn __file__ (rs1 ++ recipe :: rs2) rest).
    rewrite IH; [|done| | |].
    + rewrite files_of_cons. cbn [fs events mbind list_bind].
      by rewrite <- !app_assoc.
    + cbn [fs]. rewrite lookup_insert_ne; [done|].
      intros E. pose proof (fixture_path_longer __file__ name1 Hs) as Hlen.
      rewrite E in Hlen. lia.
    + cbn [fs]. eapply Forall_impl; [exact Hfree|].
      intros [[name' prs'] msg'] Hname'. rewrite lookup_insert.
      by case_decide.
    + cbn [fs]. rewrite lookup_insert_ne; [done|].
      intros E. by rewrite E in Hfree1.
Qed.

Lemma fixtures_simple :
  Forall (λ '(name, _, _), no_sep name = true ∧ starts_with_sep name = false)
         fixtures.
Proof.
  rewrite fixtures_eq.
  repeat (apply Forall_cons; split; [by split|]). apply Forall_nil_2.
Qed.

(** X2. The driver has no net under the recipes.  When a directory is in the
    place of the fixture of a recipe, and none in the place of an earlier
    one, the run ends with the error of that save: the recipes before it
    have written their files and printed their lines, the recipes after it
    are not called, and neither the rule nor the closing line is printed. *)
Theorem main_stops_at_blocked_recipe (__file__ : str) (w : World) (k : nat)
    (name msg : str) (prs : Presentation) :
  fixtures !! k = Some (name, prs, msg) →
  no_file_on_the_way (OUTPUT_DIR __file__) (fs w) →
  Forall (λ '(name, _, _), fs w !! fixture_path __file__ name ≠ Some Dir)
         (take k fixtures) →
  fs w !! fixture_path __file__ name = Some Dir →
  main __file__ w =
    (Raise IsADirectoryError,
     mkWorld (with_files (take k (written __file__))
                (after_makedirs (OUTPUT_DIR __file__) (fs w)))
             (events w
              ++ [ev_makedirs (OUTPUT_DIR __file__);
                  ev_print (py "Generating test PPTX files in "
                            ++ OUTPUT_DIR __file__ ++ py "...");
                  ev_print (str_mul (py "-") 50)]
              ++ (take k fixtures ≫= recipe_events __file__)
              ++ [ev_save (fixture_path __file__ name) prs])).
Proof.
  intros Hk Hway Hfree Hdir.
  destruct (Forall2_lookup_r _ _ _ _ _ recipes_produce Hk)
    as (recipe & Hrecipe & Hprod).
  pose proof fixtures_simple as Hsimple.
  rewrite main_in_turn.
  unfold ensure_output_dir.
  rewrite (bind_ok _ _ _ _ _ (makedirs_ok _ _ Hway)).
  rewrite (bind_ok _ _ _ _ _ (print_run _ _)).
  rewrite (bind_ok _ _ _ _ _ (print_run _ _)).
  rewrite <- (take_drop_middle recipes k recipe Hrecipe).
  rewrite (in_turn_blocked __file__ (take k recipes) _ recipe (take k fixtures)
             name msg prs).
  - cbn [fs events]. unfold written, files_of. rewrite fmap_take.
    by rewrite <- !app_assoc.
  - apply Forall2_take, recipes_produce.
  - done.
  - by apply Forall_take.
  - cbn [fs]. apply after_makedirs_dir.
  - cbn [fs]. eapply Forall_impl.
    + apply Forall_and. split; [exact Hfree|apply Forall_take, Hsimple].
    + intros [[name' prs'] msg'] [Hn [_ Hs]].
      rewrite after_makedirs_longer; [done|]. by apply fixture_path_longer.
  - cbn [fs]. rewrite after_makedirs_longer; [done|].
    apply fixture_path_longer.
    assert (Hin : (name, prs, msg) ∈ fixtures) by by eapply list_elem_of_lookup_2.
    by destruct (proj1 (Forall_forall _ _) Hsimple _ Hin).
Qed.

(** The driver on a disk where a directory is in the place of the third
    fixture. *)
Lemma main_stops_at_gradients :
  fixtures !! 2%nat
    = Some (py "gradients.pptx", document gradients, py "Created gradients.pptx") ∧
  no_file_on_the_way (OUTPUT_DIR sample_file) (fs blocked_disk) ∧
  Forall (λ '(name, _, _),
            fs blocked_disk !! fixture_path sample_file name ≠ Some Dir)
         (take 2 fixtures) ∧
  fs blocked_disk !! fixture_path sample_file (py "gradients.pptx") = Some Dir ∧
  (main sample_file blocked_disk).1 = Raise IsADirectoryError ∧
  prints (events (main sample_file blocked_disk).2)
    = [py "Generating test PPTX files in " ++ OUTPUT_DIR sample_file ++ py "...";
       str_mul (py "-") 50;
       py "Created basic-shapes.pptx"; py "Created text-formatting.pptx"].
Proof.
  assert (H0 : fixtures !! 2%nat
    = Some (py "gradients.pptx", document gradients, py "Created gradients.pptx")).
  { by rewrite fixtures_eq. }
  assert (H1 : no_file_on_the_way (OUTPUT_DIR sample_file) (fs blocked_disk)).
  { intros q d _. simpl. rewrite lookup_singleton. by case_decide. }
  assert (H2 : Forall (λ '(name, _, _),
                 fs blocked_disk !! fixture_path sample_file name ≠ Some Dir)
                      (take 2 fixtures)).
  { rewrite fixtures_eq. cbn [take].
    repeat (apply Forall_cons; split;
            [simpl; rewrite lookup_singleton_ne;
             [done|intros E; vm_compute in E; discriminate E]|]).
    apply Forall_nil_2. }
  assert (H3 : fs blocked_disk
               !! fixture_path sample_file (py "gradients.pptx") = Some Dir).
  { simpl. by rewrite lookup_singleton_eq. }
  split; [exact H0|]. split; [exact H1|]. split; [exact H2|]. split; [exact H3|].
  rewrite (main_stops_at_blocked_recipe sample_file blocked_disk 2 _ _ _
             H0 H1 H2 H3).
  split; [reflexivity|]. rewrite fixtures_eq. reflexivity.
Defined.

(** ** What a run leaves on the disk *)

Lemma with_files_cons (p : str) (d : Presentation)
    (files : list (str * Presentation)) (m : gmap str Node) :
  with_files ((p, d) :: files) m = with_files files (<[p := File d]> m).
Proof. reflexivity. Qed.

Lemma with_files_not_in (files : list (str * Presentation)) (q : str)
    (m : gmap str Node) :
  q ∉ files.*1 → with_files files m !! q = m !! q.
Proof.
  intros Hq. apply with_files_other, Forall_forall.
  intros [p d] Hin E. simpl in E. subst q.
  apply Hq. apply list_elem_of_fmap. by exists (p, d).
Qed.

(** What is at a path that is written depends on the files only. *)
Lemma with_files_same (files : list (str * Presentation)) (q : str)
    (m m' : gmap str Node) :
  q ∈ files.*1 → with_files files m !! q = with_files files m' !! q.
Proof.
  revert m m'. induction files as [|[p d] files IH]; intros m m' Hq.
  - by apply elem_of_nil in Hq.
  - rewrite !with_files_cons.
    destruct (decide (q ∈ files.*1)) as [Hin|Hout]; [by apply IH|].
    rewrite !with_files_not_in by done.
    simpl in Hq. apply elem_of_cons in Hq as [->|Hq]; [|done].
    by rewrite !lookup_insert_eq.
Qed.

Lemma with_files_twice (files : list (str * Presentation)) (m : gmap str Node) :
  with_files files (with_files files m) = with_files files m.
Proof.
  apply map_eq. intros q.
  destruct (decide (q ∈ files.*1)) as [Hin|Hout].
  - by apply with_files_same.
  - by rewrite !with_files_not_in.
Qed.

Lemma with_files_written (files : list (str * Presentation)) (q : str)
    (m : gmap str Node) (d : Presentation) :
  with_files files m !! q = Some (File d) →
  m !! q = Some (File d) ∨ (q, d) ∈ files.
Proof.
  revert m. induction files as [|[p d'] files IH]; intros m Hq; [by left|].
  rewrite with_files_cons in Hq. apply IH in Hq as [Hq|Hq].
  - rewrite lookup_insert in Hq. case_decide as E.
    + injection Hq as ->. subst. right. apply list_elem_of_here.
    + by left.
  - right. by apply list_elem_of_further.
Qed.

Lemma with_files_no_dir (files : list (str * Presentation)) (q : str)
    (m : gmap str Node) :
  with_files files m !! q = Some Dir → m !! q = Some Dir.
Proof.
  revert m. induction files as [|[p d] files IH]; intros m Hq; [done|].
  rewrite with_files_cons in Hq. apply IH in Hq.
  rewrite lookup_insert in Hq. by case_decide.
Qed.

Lemma after_makedirs_no_file (p q : str) (m : gmap str Node) (d : Presentation) :
  after_makedirs p m !! q = Some (File d) → m !! q = Some (File d).
Proof.
  unfold after_makedirs.
  assert (Hw : with_dirs p m !! q = Some (File d) → m !! q = Some (File d)).
  { unfold with_dirs. rewrite lookup_insert. case_decide; [done|].
    generalize (ancestors p). intros l. revert m.
    induction l as [|a l IH]; intros m; [done|].
    simpl. intros Hq%IH. rewrite lookup_insert in Hq. by case_decide. }
  by destruct (m !! p) as [[|d']|].
Qed.

(** X5. Running the driver again changes nothing on the disk.  After a run
    that nothing stops, a second run is not stopped either; it finds the
    output directory, overwrites each fixture with the same document, and
    leaves the file system as the first run left it. *)
Theorem main_twice (__file__ : str) (w : World) :
  no_file_on_the_way (OUTPUT_DIR __file__) (fs w) →
  no_dir_in_place __file__ (fs w) →
  ∃ w1 w2,
    main __file__ w = (OK tt, w1) ∧
    main __file__ w1 = (OK tt, w2) ∧
    fs w2 = fs w1 ∧
    events w2 = events w1 ++ main_events __file__.
Proof.
  intros Hway Hfree.
  set (m1 := after_makedirs (OUTPUT_DIR __file__) (fs w)).
  set (w1 := mkWorld (with_files (written __file__) m1)
                     (events w ++ main_events __file__)).
  assert (Hdir : fs w1 !! OUTPUT_DIR __file__ = Some Dir).
  { cbn [w1 fs]. rewrite with_files_not_in; [apply after_makedirs_dir|].
    rewrite written_paths. intros (stem & E & _)%list_elem_of_fmap.
    apply (f_equal length) in E. rewrite length_app in E. simpl in E. lia. }
  assert (Hway1 : no_file_on_the_way (OUTPUT_DIR __file__) (fs w1)).
  { intros q d Hq Hfile. cbn [w1 fs] in Hfile.
    apply with_files_written in Hfile as [Hfile|Hfile].
    - apply after_makedirs_no_file in Hfile. by apply (Hway q d).
    - assert (Hlen : (length q ≤ length (OUTPUT_DIR __file__))%nat).
      { apply elem_of_app in Hq as [Hq%ancestors_shorter|Hq]; [lia|].
        apply list_elem_of_singleton in Hq as ->. lia. }
      assert (Hp : q ∈ (written __file__).*1).
      { apply list_elem_of_fmap. by exists (q, d). }
      rewrite written_paths in Hp.
      apply list_elem_of_fmap in Hp as (stem & -> & _).
      rewrite length_app in Hlen. simpl in Hlen. lia. }
  assert (Hfree1 : no_dir_in_place __file__ (fs w1)).
  { intros name Hname Hd. cbn [w1 fs] in Hd.
    apply with_files_no_dir in Hd. unfold m1 in Hd.
    rewrite after_makedirs_longer in Hd; [by apply (Hfree name)|].
    apply fixture_path_longer. by destruct (fixture_name_simple name Hname). }
  exists w1. eexists. split; [by apply main_run|].
  split; [by apply main_run|]. split; [|reflexivity].
  cbn [fs]. unfold after_makedirs. rewrite Hdir. apply with_files_twice.
Qed.

Lemma main_twice_on_empty_disk :
  no_file_on_the_way (OUTPUT_DIR sample_file) (fs empty_disk) ∧
  no_dir_in_place sample_file (fs empty_disk) ∧
  ∃ w1 w2, main sample_file empty_disk = (OK tt, w1) ∧
           main sample_file w1 = (OK tt, w2) ∧ fs w2 = fs w1.
Proof.
  assert (H1 : no_file_on_the_way (OUTPUT_DIR sample_file) (fs empty_disk)).
  { intros q d _. simpl. by rewrite lookup_empty. }
  assert (H2 : no_dir_in_place sample_file (fs empty_disk)).
  { intros name _. simpl. by rewrite lookup_empty. }
  split; [exact H1|]. split; [exact H2|].
  destruct (main_twice sample_file empty_disk H1 H2)
    as (w1 & w2 & Hrun1 & Hrun2 & Hfs & _).
  exists w1, w2. split; [exact Hrun1|]. split; [exact Hrun2|exact Hfs].
Defined.

(** ** When the output directory cannot be made *)

Lemma mkdirs_on_way_blocked (l : list str) (q : str) (d : Presentation) :
  ∀ w : World,
    q ∈ l → fs w !! q = Some (File d) →
    ∃ w', for_each l mkdir_on_way w = (Raise NotADirectoryError, w')
          ∧ events w' = events w
          ∧ ∀ p prs, fs w' !! p = Some (File prs) → fs w !! p = Some (File prs).
Proof.
  induction l as [|a l IH]; intros w Hq Hfile; [by apply elem_of_nil in Hq|].
  cbn [for_each].
  destruct (fs w !! a) as [[|d']|] eqn:Ea.
  - assert (Ha : mkdir_on_way a w = (OK tt, w)).
    { unfold mkdir_on_way, mbind, M_bind, get. by rewrite Ea. }
    rewrite (bind_ok _ _ _ _ _ Ha). apply IH; [|done].
    apply elem_of_cons in Hq as [->|Hq]; [congruence|done].
  - exists w. split; [|done]. apply bind_raise.
    unfold mkdir_on_way, mbind, M_bind, get. by rewrite Ea.
  - assert (Ha : mkdir_on_way a w
                 = (OK tt, mkWorld (<[a := Dir]> (fs w)) (events w))).
    { unfold mkdir_on_way, mbind, M_bind, get. by rewrite Ea. }
    rewrite (bind_ok _ _ _ _ _ Ha).
    assert (Hne : a ≠ q) by congruence.
    destruct (IH (mkWorld (<[a := Dir]> (fs w)) (events w)))
      as (w' & Hrun & Hev & Hfiles).
    + apply elem_of_cons in Hq as [->|Hq]; [done|done].
    + cbn [fs]. by rewrite lookup_insert_ne.
    + exists w'. split; [done|]. split; [done|].
      intros p prs Hp%Hfiles. cbn [fs] in Hp.
      rewrite lookup_insert in Hp. by case_decide.
Qed.

(** X1. The driver makes the output directory before anything else, and does
    not go on without it.  When a file is where the output directory or a
    directory above it has to be, and the output directory is not there,
    [main] raises the error of [makedirs]: that call is the only one the
    run makes, so no line is printed and no recipe is called, and no file
    appears on the disk. *)
Theorem main_stops_without_output_dir (__file__ : str) (w : World)
    (q : str) (d : Presentation) :
  q ∈ ancestors (OUTPUT_DIR __file__) ++ [OUTPUT_DIR __file__] →
  fs w !! q = Some (File d) →
  fs w !! OUTPUT_DIR __file__ ≠ Some Dir →
  ∃ e w',
    main __file__ w = (Raise e, w') ∧
    (e = FileExistsError ∨ e = NotADirectoryError) ∧
    events w' = events w ++ [ev_makedirs (OUTPUT_DIR __file__)] ∧
    (∀ p prs, fs w' !! p = Some (File prs) → fs w !! p = Some (File prs)).
Proof.
  intros Hq Hfile Hnodir.
  destruct (fs w !! OUTPUT_DIR __file__) as [[|d']|] eqn:Eout; [done| |].
  - exists FileExistsError. eexists. split.
    + unfold main, ensure_output_dir. apply bind_raise.
      rewrite makedirs_eq. cbv zeta. by rewrite Eout.
    + split; [by left|]. split; [done|]. by intros p prs.
  - apply elem_of_app in Hq as [Hq|Hq].
    2:{ apply list_elem_of_singleton in Hq as ->. congruence. }
    destruct (mkdirs_on_way_blocked _ q d
                (mkWorld (fs w) (events w ++ [ev_makedirs (OUTPUT_DIR __file__)]))
                Hq Hfile) as (w' & Hrun & Hev & Hfiles).
    exists NotADirectoryError, w'. split.
    + unfold main, ensure_output_dir. apply bind_raise.
      rewrite makedirs_eq. cbv zeta. rewrite Eout. by apply bind_raise.
    + split; [by right|]. split; [done|]. exact Hfiles.
Qed.

Lemma main_stops_on_file_for_dir :
  OUTPUT_DIR sample_file
    ∈ ancestors (OUTPUT_DIR sample_file) ++ [OUTPUT_DIR sample_file] ∧
  fs file_for_dir !! OUTPUT_DIR sample_file = Some (File Presentation_) ∧
  fs file_for_dir !! OUTPUT_DIR sample_file ≠ Some Dir ∧
  ∃ e w', main sample_file file_for_dir = (Raise e, w') ∧
          events w' = [ev_makedirs (OUTPUT_DIR sample_file)].
Proof.
  assert (H1 : OUTPUT_DIR sample_file
    ∈ ancestors (OUTPUT_DIR sample_file) ++ [OUTPUT_DIR sample_file]).
  { apply elem_of_app. right. apply list_elem_of_here. }
  assert (H2 : fs file_for_dir !! OUTPUT_DIR sample_file
               = Some (File Presentation_)).
  { simpl. by rewrite lookup_singleton_eq. }
  assert (H3 : fs file_for_dir !! OUTPUT_DIR sample_file ≠ Some Dir).
  { by rewrite H2. }
  split; [exact H1|]. split; [exact H2|]. split; [exact H3|].
  destruct (main_stops_without_output_dir sample_file file_for_dir _ _ H1 H2 H3)
    as (e & w' & Hrun & _ & Hev & _).
  exists e, w'. split; [exact Hrun|exact Hev].
Defined.

Lemma Forall2_with_right {A B} (P : A → B → Prop) (Q : B → Prop)
    (l : list A) (k : list B) :
  Forall2 P l k → Forall Q k → Forall2 (λ a b, P a b ∧ Q b) l k.
Proof.
  induction 1 as [|a b l k HP _ IH]; intros HQ; [constructor|].
  apply Forall_cons in HQ as [Hb HQ]. constructor; [done|by apply IH].
Qed.

(** X3. A recipe does not make the output directory: called where it is
    missing, and where nothing is in the place of the fixture, every recipe
    raises at its save, writes nothing and prints nothing.  The call of
    [ensure_output_dir] at the start of [main] is what lets them succeed. *)
Theorem recipes_need_output_dir (__file__ : str) (w : World) :
  fs w !! OUTPUT_DIR __file__ = None →
  Forall2 (λ (recipe : str → IO unit) '(name, prs, msg),
             fs w !! fixture_path __file__ name ≠ Some Dir →
             recipe __file__ w =
               (Raise FileNotFoundError,
                mkWorld (fs w)
                        (events w ++ [ev_save (fixture_path __file__ name) prs])))
          recipes fixtures.
Proof.
  intros Hout.
  eapply Forall2_impl.
  - apply Forall2_with_right; [apply recipes_produce|apply fixtures_simple].
  - intros recipe [[name prs] msg] [Hprod [Hn Hs]] Hfree.
    rewrite Hprod. apply bind_raise. rewrite save_eq. cbv zeta.
    rewrite fixture_dirname by done. rewrite Hout.
    rewrite bool_decide_eq_false_2 by apply OUTPUT_DIR_nonempty.
    by destruct (fs w !! fixture_path __file__ name) as [[|d]|].
Qed.

Lemma recipes_need_output_dir_on_empty_disk :
  fs empty_disk !! OUTPUT_DIR sample_file = None ∧
  (create_basic_shapes_pptx sample_file empty_disk).1 = Raise FileNotFoundError.
Proof.
  assert (H1 : fs empty_disk !! OUTPUT_DIR sample_file = None).
  { simpl. apply lookup_empty. }
  split; [exact H1|].
  pose proof (recipes_need_output_dir sample_file empty_disk H1) as Hall.
  rewrite fixtures_eq in Hall. unfold recipes in Hall.
  apply Forall2_cons_1 in Hall as [Hfirst _].
  rewrite Hfirst; [reflexivity|]. simpl. by rewrite lookup_empty.
Defined.

(** ** The console *)

(** X6. A run that nothing stops prints eleven lines: the banner, which names
    the output directory, a rule of fifty dashes, one confirmation for each
    recipe in the order of the calls, the same rule, and the closing
    line. *)
Theorem main_prints (__file__ : str) (w : World) :
  no_file_on_the_way (OUTPUT_DIR __file__) (fs w) →
  no_dir_in_place __file__ (fs w) →
  prints (emitted (main __file__) w) =
    [py "Generating test PPTX files in " ++ OUTPUT_DIR __file__ ++ py "..."]
    ++ [replicate 50 45%N]
    ++ [py "Created basic-shapes.pptx"; py "Created text-formatting.pptx";
        py "Created gradients.pptx"; py "Created tables.pptx";
        py "Created multi-slide.pptx"; py "Created comprehensive.pptx";
        py "Created images.pptx (placeholder)"]
    ++ [replicate 50 45%N]
    ++ [py "Done! Test files created in tests/fixtures/"].
Proof.
  intros Hway Hfree. rewrite main_emitted by done.
  unfold main_events. rewrite fixtures_eq. reflexivity.
Qed.

Lemma main_prints_on_empty_disk :
  no_file_on_the_way (OUTPUT_DIR sample_file) (fs empty_disk) ∧
  no_dir_in_place sample_file (fs empty_disk) ∧
  length (prints (emitted (main sample_file) empty_disk)) = 11%nat.
Proof.
  assert (H1 : no_file_on_the_way (OUTPUT_DIR sample_file) (fs empty_disk)).
  { intros q d _. simpl. by rewrite lookup_empty. }
  assert (H2 : no_dir_in_place sample_file (fs empty_disk)).
  { intros name _. simpl. by rewrite lookup_empty. }
  split; [exact H1|]. split; [exact H2|].
  rewrite (main_prints sample_file empty_disk H1 H2). reflexivity.
Defined.

(** ** Where the fixtures go *)

(** X7. Every fixture lies directly in the output directory: its path is the
    output directory, one separator and the file name, and the directory of
    that path is the output directory again, wherever the script is. *)
Theorem fixtures_in_output_dir (__file__ : str) :
  Forall (λ name,
            fixture_path __file__ name = OUTPUT_DIR __file__ ++ SEP :: name ∧
            os_path_dirname (fixture_path __file__ name) = OUTPUT_DIR __file__)
         fixture_names.
Proof.
  eapply Forall_impl; [apply fixture_names_simple|].
  intros name [Hn Hs]. split; [by apply fixture_path_eq|by apply fixture_dirname].
Qed.

(** X8. The output directory of a script called by its bare name, from its own
    directory, is the relative path [../tests/fixtures]. *)
Theorem OUTPUT_DIR_of_bare_name (name : str) :
  no_sep name = true → OUTPUT_DIR name = py "../tests/fixtures".
Proof.
  intros Hn. unfold OUTPUT_DIR, os_path_dirname.
  rewrite split_last_sep_no_sep by done. reflexivity.
Qed.

Lemma OUTPUT_DIR_of_bare_name_example :
  no_sep (py "generate-test-pptx.py") = true ∧
  OUTPUT_DIR (py "generate-test-pptx.py") = py "../tests/fixtures".
Proof.
  split; [reflexivity|]. apply OUTPUT_DIR_of_bare_name. reflexivity.
Defined.

(** X9. The output directory of a script in a directory [d] is
    [d/../tests/fixtures]: the parent is not resolved, the path goes through
    the directory of the script. *)
Theorem OUTPUT_DIR_of_script_in_dir (d name : str) (c : N) :
  last d = Some c → is_sep c = false → no_sep name = true →
  OUTPUT_DIR (d ++ SEP :: name) = d ++ py "/../tests/fixtures".
Proof.
  intros Hl Hc Hn. unfold OUTPUT_DIR.
  rewrite (dirname_in_dir d name c) by done.
  assert (Hd : d ≠ []) by (intros ->; done).
  assert (He : ends_with_sep d = false) by (unfold ends_with_sep; by rewrite Hl).
  assert (Hne : ∀ a b : str, b ≠ [] → a ++ b ≠ []).
  { intros a b Hb E. by apply app_eq_nil in E as [_ ?]. }
  unfold os_path_join. cbn [foldl].
  rewrite (join2_relative d) by done.
  rewrite (join2_relative (d ++ SEP :: py ".."));
    [|done|by apply Hne|by rewrite ends_with_sep_app].
  rewrite join2_relative; [|done|by apply Hne|by rewrite ends_with_sep_app].
  by rewrite <- !app_assoc.
Qed.

Lemma OUTPUT_DIR_of_sample_file :
  last (py "/repo/scripts") = Some 115%N ∧ is_sep 115%N = false ∧
  no_sep (py "generate-test-pptx.py") = true ∧
  OUTPUT_DIR sample_file = py "/repo/scripts/../tests/fixtures".
Proof.
  split; [reflexivity|]. split; [reflexivity|]. split; [reflexivity|].
  exact (OUTPUT_DIR_of_script_in_dir (py "/repo/scripts")
           (py "generate-test-pptx.py") 115%N eq_refl eq_refl eq_refl).
Defined.

(** ** The documents as a whole *)

(** X10. Every element of every fixture lies on its slide: its box has a
    positive width and height and does not reach beyond the slide on any
    side. *)
Theorem fixtures_on_their_slides :
  in_every_slide (λ prs sl,
    Forall (λ e, from_option (box_on_slide prs) false (element_box e))
           (sl_shapes sl)).
Proof. unfold in_every_slide. by_evaluation. Qed.


(** X12. No recipe leaves a fill half made.  In every fixture every auto
    shape has a fill with its colors in place, a solid fill with an RGB
    color or a linear gradient of exactly two stops, both with an RGB color:
    each [solid()] and each [gradient()] is followed by the colors.  Every
    text box keeps the explicit no-fill the library makes it with, and
    every table cell has a solid fill with an RGB color or no fill of its
    own. *)
Theorem fixtures_fills_complete :
  in_every_slide (λ _ sl, Forall (λ e, fills_as_made e) (sl_shapes sl)).
Proof. unfold in_every_slide. by_evaluation. Qed.

(** X13. Every text frame of every fixture, in shapes, text boxes and table
    cells, has at least one paragraph, and no run is empty. *)
Theorem fixtures_text_frames :
  in_every_slide (λ _ sl,
    Forall (λ e,
      Forall (λ tf, tf_paragraphs tf ≠ []
                    ∧ Forall (λ p, Forall (λ r, r_text r ≠ []) (runs p))
                             (tf_paragraphs tf))
             (element_text_frames e))
      (sl_shapes sl)).
Proof. unfold in_every_slide. by_evaluation. Qed.

(** ** The recipes the claims leave aside *)

(** X14. The images recipe embeds no image.  It saves a document of one slide
    whose only element is a text box, 8 by 2 inches at (1, 2), with
    explicitly no fill, holding one centered paragraph of 24 points with
    the note as a single run. *)
Theorem images_fixture :
  produces create_images_pptx (py "images.pptx")
           (py "Created images.pptx (placeholder)") (document images) ∧
  slides (document images) =
    [mkSlide BLANK
       [el_shape 2 text_box (mkBox (Inches 1) (Inches 2) (Inches 8) (Inches 2))
          fill_none
          (mkTextFrame
             [one_run (py "Image test - add images manually or use a sample image")
                      (Some CENTER) (set_f_size (Some (Pt 24)) no_font)]
             (Some false))]].
Proof. split; [apply images_produced|]. vm_compute. reflexivity. Qed.

(** X15. The multi-slide recipe saves a document of three slides, all on the
    blank layout: a title box with two centered paragraphs, the title bold
    at 44 points and the subtitle at 24; a heading with a rectangle and an
    oval, solid blue and green, labelled "Shape 1" and "Shape 2"; a heading
    with a text box, the only one of the document with word wrap on.  The
    headings are bold at 32 points and not centered. *)
Theorem multi_slide_fixture :
  produces create_multi_slide_pptx (py "multi-slide.pptx")
           (py "Created multi-slide.pptx") (document multi_slide) ∧
  ∃ s1 s2 s3,
    slides (document multi_slide) = [s1; s2; s3] ∧
    sl_layout <$> [s1; s2; s3] = [BLANK; BLANK; BLANK] ∧
    fmap element_geometry ∘ sl_shapes <$> [s1; s2; s3] =
      [[Some text_box];
       [Some text_box; Some (preset RECTANGLE); Some (preset OVAL)];
       [Some text_box; Some text_box]] ∧
    tf_paragraphs <$> text_boxes s1 =
      [[one_run (py "Multi-Slide Presentation") (Some CENTER)
                (set_f_bold (Some true) (set_f_size (Some (Pt 44)) no_font));
        one_run (py "Testing slide navigation") (Some CENTER)
                (set_f_size (Some (Pt 24)) no_font)]] ∧
    tf_paragraphs <$> text_boxes s2 =
      [[one_run (py "Slide 2: Content Slide") None
                (set_f_bold (Some true) (set_f_size (Some (Pt 32)) no_font))]] ∧
    (λ e, (element_fill e, label e)) <$> auto_shapes s2 =
      [(Some (fill_solid (color_rgb (RGBColor 0x41 0x69 0xE1))), py "Shape 1");
       (Some (fill_solid (color_rgb (RGBColor 0x32 0xCD 0x32))), py "Shape 2")] ∧
    tf_paragraphs <$> text_boxes s3 =
      [[one_run (py "Slide 3: Final Slide") None
                (set_f_bold (Some true) (set_f_size (Some (Pt 32)) no_font))];
       [one_run (py "This is the final slide of the presentation. It contains text content to verify multi-slide navigation works correctly.")
                None (set_f_size (Some (Pt 18)) no_font)]] ∧
    fmap tf_word_wrap ∘ text_boxes <$> [s1; s2; s3] =
      [[Some false]; [Some false]; [Some false; Some true]].
Proof.
  split; [apply multi_slide_produced|].
  do 3 eexists. split; [vm_compute; reflexivity|].
  repeat split; vm_compute; reflexivity.
Qed.

(** X16. The run paragraphs of the text-formatting recipe.  The title is one
    centered run, bold, 36 points, dark gray.  The second box has four runs
    of 18 points: "Bold " is bold, "Italic " italic, "Underline "
    underlined, each with that one property, and "Strikethrough" has none:
    no strike is set on it.  The third has five runs of 18 points, each in
    a color of its own.  The fourth has five runs whose text is the size
    they are set in, from 12 to 48 points.  None of these boxes has word
    wrap on. *)
Theorem text_formatting_runs :
  ∃ sl title mixed colored sized rest,
    slides (document text_formatting) = [sl] ∧
    text_boxes sl = title :: mixed :: colored :: sized :: rest ∧
    length rest = 2%nat ∧
    tf_paragraphs title =
      [mkParagraph
         [inline_run (mkRun (py "Text Formatting Test")
            (mkFont (Some (Pt 36)) (Some true) None None
                    (color_rgb (RGBColor 0x33 0x33 0x33))))]
         (Some CENTER) 0 bu_inherited no_font] ∧
    runs <$> tf_paragraphs mixed =
      [[mkRun (py "Bold ") (mkFont (Some (Pt 18)) (Some true) None None color_unset);
        mkRun (py "Italic ") (mkFont (Some (Pt 18)) None (Some true) None color_unset);
        mkRun (py "Underline ") (mkFont (Some (Pt 18)) None None (Some true) color_unset);
        mkRun (py "Strikethrough") (mkFont (Some (Pt 18)) None None None color_unset)]] ∧
    (let colors :=
       [(py "Red ", RGBColor 0xFF 0x00 0x00); (py "Green ", RGBColor 0x00 0x80 0x00);
        (py "Blue ", RGBColor 0x00 0x00 0xFF); (py "Orange ", RGBColor 0xFF 0xA5 0x00);
        (py "Purple", RGBColor 0x80 0x00 0x80)] in
     runs <$> tf_paragraphs colored =
       [(λ '(text, c), mkRun text (mkFont (Some (Pt 18)) None None None (color_rgb c)))
          <$> colors]
     ∧ NoDup colors.*2) ∧
    (let sizes := [12; 18; 24; 36; 48] in
     runs <$> tf_paragraphs sized =
       [(λ size, mkRun (str_of_int size ++ py "pt ")
                       (mkFont (Some (size * 12700)) None None None color_unset))
          <$> sizes]
     ∧ (str_of_int <$> sizes) = [py "12"; py "18"; py "24"; py "36"; py "48"]) ∧
    tf_word_wrap <$> [title; mixed; colored; sized] = replicate 4 (Some false) ∧
    tf_word_wrap <$> rest = replicate 2 (Some true).
Proof.
  do 6 eexists. split; [vm_compute; reflexivity|].
  split; [vm_compute; reflexivity|].
  repeat split; try (vm_compute; reflexivity).
  by_evaluation.
Qed.

(** X17. The rest of the comprehensive slide.  The title is one bold centered
    paragraph of 32 points in its own color.  The five shapes of the first
    row carry their label in a paragraph that is centered again, bold, 12
    points; the five of the second row have a fill and no text, their text
    frame is as the library made it.  The gradient shape is at 45 degrees
    with a white, bold, centered label of 14 points.  The cells of the
    header row are solid dark blue with bold white text of 11 points; the
    cells of the second row have no fill and text of 11 points. *)
Theorem comprehensive_details :
  ∃ sl title row1 row2 gradient_shape t,
    slides (document comprehensive) = [sl] ∧
    head (text_boxes sl) = Some title ∧
    tf_paragraphs title =
      [one_run (py "Comprehensive Feature Test") (Some CENTER)
         (mkFont (Some (Pt 32)) (Some true) None None
                 (color_rgb (RGBColor 0x1a 0x1a 0x2e)))] ∧
    auto_shapes sl = row1 ++ row2 ++ [gradient_shape] ∧
    (λ e, (element_geometry e, element_fill e, tf_paragraphs <$> element_text_frame e))
      <$> row1 =
      (λ '(shape_type, c, text),
         (Some (preset shape_type), Some (fill_solid (color_rgb c)),
          Some [one_run text (Some CENTER)
                  (set_f_bold (Some true) (set_f_size (Some (Pt 12)) no_font))]))
      <$> [(RECTANGLE, RGBColor 0x41 0x69 0xE1, py "Rect");
           (ROUNDED_RECTANGLE, RGBColor 0x32 0xCD 0x32, py "Round");
           (OVAL, RGBColor 0xFF 0x69 0xB4, py "Oval");
           (DIAMOND, RGBColor 0xFF 0xA5 0x00, py "Diamond");
           (STAR_5_POINT, RGBColor 0xFF 0xD7 0x00, py "Star")] ∧
    (λ e, (element_geometry e, element_fill e, element_text_frame e)) <$> row2 =
      (λ '(shape_type, c),
         (Some (preset shape_type), Some (fill_solid (color_rgb c)),
          Some empty_centered))
      <$> [(RIGHT_ARROW, RGBColor 0x00 0x80 0x80); (LEFT_ARROW, RGBColor 0x80 0x00 0x80);
           (CHEVRON, RGBColor 0xDC 0x14 0x3C); (HEXAGON, RGBColor 0x4B 0x00 0x82);
           (HEART, RGBColor 0xFF 0x00 0x00)] ∧
    element_geometry gradient_shape = Some (preset ROUNDED_RECTANGLE) ∧
    (element_fill gradient_shape ≫= gradient_angle) = Some 45 ∧
    stop_colors <$> element_fill gradient_shape =
      Some [color_rgb (RGBColor 0x66 0x00 0xFF); color_rgb (RGBColor 0x00 0xFF 0xFF)] ∧
    tf_paragraphs <$> element_text_frame gradient_shape =
      Some [one_run (py "Gradient Fill") (Some CENTER)
              (mkFont (Some (Pt 14)) (Some true) None None white)] ∧
    slide_tables sl = [t] ∧
    row_cells <$> tbl_rows t =
      [(λ header,
          mkCell (fill_solid (color_rgb (RGBColor 0x2C 0x3E 0x50)))
            (mkTextFrame
               [one_run header None
                  (mkFont (Some (Pt 11)) (Some true) None None white)] None))
         <$> [py "Column A"; py "Column B"; py "Column C"];
       (λ value,
          mkCell fill_inherited
            (mkTextFrame
               [one_run value None (set_f_size (Some (Pt 11)) no_font)] None))
         <$> [py "Value 1"; py "Value 2"; py "Value 3"]].
Proof.
  pose (sl := default (mkSlide BLANK []) (head (slides (document comprehensive)))).
  exists sl. eexists.
  exists (take 5 (auto_shapes sl)), (take 5 (drop 5 (auto_shapes sl))).
  exists (default (el_placeholder 0 PH_TITLE) (last (auto_shapes sl))).
  eexists.
  do 11 (split; [vm_compute; reflexivity|]).
  vm_compute. reflexivity.
Qed.
